(** * PDF-to-Markdown converters: a shallow embedding of the formatter code

    The repository holds three Python scripts,
    [advanced_pdf_to_markdown.py], [pdf_to_markdown.py] and
    [convert_pdf.py].  Each of them opens a PDF with pdfplumber, formats
    the text and the tables of every page as Markdown and writes the
    result to a file.

    Python strings are sequences of Unicode code points; they are
    modelled as lists of code points ([N]).  The regular expressions of
    the source are run by a small backtracking matcher, so that
    [clean_text] and [detect_heading] are transcribed call by call.  The
    outside world (file system, pdfplumber) is an explicit oracle. *)

From Stdlib Require Import List NArith Bool Arith Lia String Ascii.
Import ListNotations.

Open Scope N_scope.

(** ** Python strings *)

Definition pystr := list N.

(** An ASCII literal of the source, as code points. *)
Definition str (s : string) : pystr :=
  map N_of_ascii (list_ascii_of_string s).

Definition ch_tab : N := 9.
Definition ch_nl : N := 10.
Definition ch_sp : N := 32.
Definition ch_amp : N := 38.
Definition ch_lt : N := 60.
Definition ch_gt : N := 62.

(** [Py_UNICODE_ISSPACE]: the characters removed by [str.strip()] and
    matched by [\s] in a [str] pattern. *)
Definition py_isspace (c : N) : bool :=
  ((0x09 <=? c) && (c <=? 0x0D)) || ((0x1C <=? c) && (c <=? 0x20))
  || (c =? 0x85) || (c =? 0xA0) || (c =? 0x1680)
  || ((0x2000 <=? c) && (c <=? 0x200A))
  || (c =? 0x2028) || (c =? 0x2029) || (c =? 0x202F) || (c =? 0x205F)
  || (c =? 0x3000).

(** The class [[ \t]]. *)
Definition is_blank (c : N) : bool := (c =? ch_sp) || (c =? ch_tab).

(** The class [\n]. *)
Definition is_nl (c : N) : bool := c =? ch_nl.

(** The class [[A-Z]]. *)
Definition is_AZ (c : N) : bool := (65 <=? c) && (c <=? 90).

(** The literal dot [\.]. *)
Definition is_dot (c : N) : bool := c =? 46.

(** [s.lstrip()] *)
Fixpoint lstrip (s : pystr) : pystr :=
  match s with
  | [] => []
  | c :: s' => if py_isspace c then lstrip s' else s
  end.

(** [s.rstrip()] *)
Fixpoint rstrip (s : pystr) : pystr :=
  match s with
  | [] => []
  | c :: s' =>
      match rstrip s' with
      | [] => if py_isspace c then [] else [c]
      | r => c :: r
      end
  end.

(** [s.strip()]: the slice between the first and the last character that
    is not white space. *)
Definition strip (s : pystr) : pystr := rstrip (lstrip s).

(** [s.replace(old, new)] for a pattern [old] of one character, the only
    form the source uses. *)
Definition replace (old : N) (new : pystr) (s : pystr) : pystr :=
  flat_map (fun c => if c =? old then new else [c]) s.

(** [s.startswith(p)] *)
Fixpoint starts_with (p s : pystr) : bool :=
  match p, s with
  | [], _ => true
  | _ :: _, [] => false
  | a :: p', c :: s' => (a =? c) && starts_with p' s'
  end.

(** [sub in s] *)
Fixpoint contains (sub s : pystr) : bool :=
  starts_with sub s ||
  match s with
  | [] => false
  | _ :: s' => contains sub s'
  end.

(** [s.split(sep)] for a non-empty separator: [cur] holds the piece being
    read, reversed; [skip] counts the characters of a separator that are
    still to be passed over. *)
Fixpoint split_from (sep : pystr) (skip : nat) (cur : pystr) (s : pystr)
  : list pystr :=
  match s with
  | [] => [rev cur]
  | c :: s' =>
      match skip with
      | S k => split_from sep k cur s'
      | O =>
          if starts_with sep s
          then rev cur :: split_from sep (Nat.pred (List.length sep)) [] s'
          else split_from sep 0 (c :: cur) s'
      end
  end.

Definition split (sep s : pystr) : list pystr := split_from sep 0 [] s.

(** [sep.join(parts)] *)
Fixpoint join (sep : pystr) (parts : list pystr) : pystr :=
  match parts with
  | [] => []
  | [p] => p
  | p :: rest => p ++ sep ++ join sep rest
  end.

(** ** Regular expressions

    Every pattern of the source is a sequence of character classes, each
    taken once or under one of the greedy quantifiers [?], [*], [+]. *)

Inductive quant := Once | Maybe | Many0 | Many1.

Definition atom := ((N -> bool) * quant)%type.
Definition regex := list atom.

(** Greedy repetition of the class [p], followed by the rest of the
    pattern [k]: the longest run is tried first, and one character is
    given back at a time while [k] fails. *)
Fixpoint star (p : N -> bool) (k : pystr -> option nat) (s : pystr)
  : option nat :=
  match s with
  | [] => k []
  | c :: s' =>
      if p c
      then match star p k s' with
           | Some n => Some (S n)
           | None => k s
           end
      else k s
  end.

(** The number of characters consumed by the match of [r] at the start of
    [s] that a backtracking matcher finds first, if there is one. *)
Fixpoint match_len (r : regex) (s : pystr) {struct r} : option nat :=
  match r with
  | [] => Some O
  | (p, q) :: r' =>
      match q with
      | Once =>
          match s with
          | c :: s' => if p c then option_map S (match_len r' s') else None
          | [] => None
          end
      | Maybe =>
          match s with
          | c :: s' =>
              if p c
              then match match_len r' s' with
                   | Some n => Some (S n)
                   | None => match_len r' s
                   end
              else match_len r' s
          | [] => match_len r' []
          end
      | Many0 => star p (match_len r') s
      | Many1 =>
          match s with
          | c :: s' =>
              if p c then option_map S (star p (match_len r') s') else None
          | [] => None
          end
      end
  end.

(** [re.match(r, s)] as a truth value. *)
Definition re_match (r : regex) (s : pystr) : bool :=
  match match_len r s with Some _ => true | None => false end.

(** [re.sub(r, repl, s)]: the leftmost matches, left to right, without
    overlap.  [skip] counts the characters of the current match that are
    still to be passed over.  An empty match inserts [repl] and moves on
    by one character. *)
Fixpoint sub_from (r : regex) (repl : pystr) (skip : nat) (s : pystr)
  : pystr :=
  match s with
  | [] =>
      match skip, match_len r [] with
      | O, Some _ => repl
      | _, _ => []
      end
  | c :: s' =>
      match skip with
      | S k => sub_from r repl k s'
      | O =>
          match match_len r s with
          | Some (S n) => repl ++ sub_from r repl n s'
          | Some O => repl ++ c :: sub_from r repl 0 s'
          | None => c :: sub_from r repl 0 s'
          end
      end
  end.

Definition re_sub (r : regex) (repl : pystr) (s : pystr) : pystr :=
  sub_from r repl 0 s.

(** [r'[ \t]+'] *)
Definition re_blanks : regex := [(is_blank, Many1)].

(** [r'\n\s*\n'] *)
Definition re_blank_lines : regex :=
  [(is_nl, Once); (py_isspace, Many0); (is_nl, Once)].

(** [r'\s+'] *)
Definition re_spaces : regex := [(py_isspace, Many1)].

(** The three replacements of [&], [<] and [>], in the order of the
    source. *)
Definition escape_html (text : pystr) : pystr :=
  let text := replace ch_amp (str "&amp;") text in
  let text := replace ch_lt (str "&lt;") text in
  replace ch_gt (str "&gt;") text.

(** A Python value used as a condition: [None] and the empty string are
    false. *)
Definition truthy (text : option pystr) : bool :=
  match text with
  | None => false
  | Some [] => false
  | Some (_ :: _) => true
  end.

(** The string of a value that is a string, [None] counting as empty. *)
Definition or_empty (text : option pystr) : pystr :=
  match text with
  | None => []
  | Some s => s
  end.

(** [a == b] on strings *)
Fixpoint pystr_eqb (a b : pystr) : bool :=
  match a, b with
  | [], [] => true
  | x :: a', y :: b' => (x =? y) && pystr_eqb a' b'
  | _, _ => false
  end.

(** [len(s) < n] *)
Definition len_lt (s : pystr) (n : nat) : bool := Nat.ltb (List.length s) n.

(** ** The Unicode character database

    [str.upper], [str.isupper] and the class [\d] read the character
    database of the interpreter.  The table is a parameter of the model;
    what is fixed about it is its content on the ASCII block and on the
    CJK unified ideographs, which have no case and are no digits. *)

(** Upper case on the ASCII block. *)
Definition ascii_upper (c : N) : N :=
  if (97 <=? c) && (c <=? 122) then c - 32 else c.

Record unicode_db := {
  to_upper : N -> pystr;
  is_upper : N -> bool;
  is_lower : N -> bool;
  is_title : N -> bool;
  is_decimal : N -> bool;
  ascii_to_upper : forall c, c < 128 -> to_upper c = [ascii_upper c];
  ascii_is_upper : forall c, c < 128 -> is_upper c = (65 <=? c) && (c <=? 90);
  ascii_is_lower : forall c, c < 128 -> is_lower c = (97 <=? c) && (c <=? 122);
  ascii_is_title : forall c, c < 128 -> is_title c = false;
  ascii_is_decimal :
    forall c, c < 128 -> is_decimal c = (48 <=? c) && (c <=? 57);
  cjk_to_upper :
    forall c, 0x4E00 <= c -> c <= 0x9FFF -> to_upper c = [c];
  cjk_caseless :
    forall c, 0x4E00 <= c -> c <= 0x9FFF ->
      is_upper c = false /\ is_lower c = false /\ is_title c = false
}.

(** [s.upper()] *)
Definition upper (db : unicode_db) (s : pystr) : pystr :=
  flat_map (to_upper db) s.

(** [s.isupper()]: no character is lower case or title case, and at least
    one is upper case. *)
Fixpoint isupper_from (db : unicode_db) (cased : bool) (s : pystr) : bool :=
  match s with
  | [] => cased
  | c :: s' =>
      if is_lower db c || is_title db c then false
      else isupper_from db (cased || is_upper db c) s'
  end.

Definition isupper (db : unicode_db) (s : pystr) : bool :=
  isupper_from db false s.

(** [r'^\d+\.?\s+[A-Z]'] *)
Definition re_numbered (db : unicode_db) : regex :=
  [(is_decimal db, Many1); (is_dot, Maybe); (py_isspace, Many1);
   (is_AZ, Once)].

(** ** Decimal numbers in f-strings *)

Fixpoint uint_digits (d : Decimal.uint) : pystr :=
  match d with
  | Decimal.Nil => []
  | Decimal.D0 d' => 48 :: uint_digits d'
  | Decimal.D1 d' => 49 :: uint_digits d'
  | Decimal.D2 d' => 50 :: uint_digits d'
  | Decimal.D3 d' => 51 :: uint_digits d'
  | Decimal.D4 d' => 52 :: uint_digits d'
  | Decimal.D5 d' => 53 :: uint_digits d'
  | Decimal.D6 d' => 54 :: uint_digits d'
  | Decimal.D7 d' => 55 :: uint_digits d'
  | Decimal.D8 d' => 56 :: uint_digits d'
  | Decimal.D9 d' => 57 :: uint_digits d'
  end.

(** [f"{n}"] for a natural number. *)
Definition format_int (n : nat) : pystr := uint_digits (Nat.to_uint n).

(** ** Tables

    pdfplumber hands a table over as a list of rows, a row being a list
    of cells, and a cell a string or [None]. *)

Definition cell := option pystr.
Definition row := list cell.
Definition table := list row.

(** [any(cell for cell in row if cell)] *)
Definition row_has_content (r : row) : bool :=
  existsb truthy (filter truthy r).

(** [any(any(cell for cell in row if cell) for row in table)] *)
Definition table_has_content (t : table) : bool :=
  existsb row_has_content t.

(** [str(cell) if cell else ''] *)
Definition cell_text (c : cell) : pystr :=
  if truthy c then or_empty c else [].

(** ['| ' + ' | '.join(str(cell) if cell else '' for cell in row) + ' |'] *)
Definition render_row (r : row) : pystr :=
  str "| " ++ join (str " | ") (map cell_text r) ++ str " |".

(** ["| " + " | ".join("---" for _ in row) + " |"] *)
Definition render_separator (r : row) : pystr :=
  str "| " ++ join (str " | ") (map (fun _ => str "---") r) ++ str " |".

(** [not l] for a list. *)
Definition is_nil {A : Type} (l : list A) : bool :=
  match l with
  | [] => true
  | _ :: _ => false
  end.

(** The two line breaks that end a block. *)
Definition nlnl : pystr := [ch_nl; ch_nl].

(** The horizontal rule ["---\n\n"]. *)
Definition rule : pystr := str "---" ++ nlnl.

(** ** The outside world

    What pdfplumber and the file system answer is given by an oracle; a
    call of the source that can raise has an [outcome]. *)

Inductive outcome (A : Type) : Type :=
| Ok (a : A)
| Raise (e : pystr).

Arguments Ok {A} a.
Arguments Raise {A} e.

(** A page of the PDF: the answers of [page.extract_text()] and
    [page.extract_tables()]. *)
Record page := {
  extract_text : outcome (option pystr);
  extract_tables : outcome (list table)
}.

(** [f.write(data)] on the opened output, and the closing of the file:
    either all of [data] is stored, or the call raises and the first
    [kept] characters are left in the file. *)
Inductive write_result :=
| Written
| WriteFailed (e : pystr) (kept : nat).

Record env := {
  path_exists : bool;              (* os.path.exists(pdf_path) *)
  path_stem : pystr;               (* Path(pdf_path).stem *)
  open_pdf : outcome (list page);  (* pdfplumber.open(pdf_path), pdf.pages *)
  open_output : outcome unit;      (* open(output_path, 'w', ...) *)
  write_output : write_result
}.

Inductive event :=
| Exists_checked (path : pystr)
| Pdf_opened (path : pystr)
| Output_opened (path : pystr)
| Output_written (path : pystr) (data : pystr)
| Printed (msg : pystr).

(** The file at the output path ([None]: there is none) and what has
    happened so far, oldest event first. *)
Record world := {
  output_file : option pystr;
  events : list event
}.

(** One more event. *)
Definition log (ev : event) (w : world) : world :=
  {| output_file := output_file w; events := events w ++ [ev] |}.

(** The output file now holds [data]. *)
Definition set_output (data : pystr) (w : world) : world :=
  {| output_file := Some data; events := events w |}.

(** [with open(output_path, 'w', encoding='utf-8') as f: f.write(data)]:
    opening the file creates it or empties it. *)
Definition write_file (e : env) (output_path data : pystr) (w : world)
  : outcome unit * world :=
  let w := log (Output_opened output_path) w in
  match open_output e with
  | Raise err => (Raise err, w)
  | Ok _ =>
      let w := set_output [] w in
      let w := log (Output_written output_path data) w in
      match write_output e with
      | Written => (Ok tt, set_output data w)
      | WriteFailed err kept => (Raise err, set_output (firstn kept data) w)
      end
  end.

Definition output_opened (w : world) : bool :=
  existsb (fun ev => match ev with Output_opened _ => true | _ => false end)
    (events w).

Definition pdf_opened (w : world) : bool :=
  existsb (fun ev => match ev with Pdf_opened _ => true | _ => false end)
    (events w).

(** [f"Error: PDF file '{pdf_path}' not found."] *)
Definition not_found_message (pdf_path : pystr) : pystr :=
  str "Error: PDF file '" ++ pdf_path ++ str "' not found.".

(** [f"Successfully converted '{pdf_path}' to '{output_path}'"] *)
Definition success_message (pdf_path output_path : pystr) : pystr :=
  str "Successfully converted '" ++ pdf_path ++ str "' to '" ++ output_path
  ++ str "'".

(** ** advanced_pdf_to_markdown.py *)

Module Advanced.

(** [clean_text(text)] *)
Definition clean_text (text : option pystr) : pystr :=
  if negb (truthy text) then []
  else
    let text := or_empty text in
    let text := re_sub re_blanks [ch_sp] text in
    let text := re_sub re_blank_lines [ch_nl; ch_nl] text in
    let text := escape_html text in
    strip text.

(** U+89C4 U+683C, U+53C2 U+6570, U+6280 U+672F, U+5C3A U+5BF8,
    U+8BF4 U+660E, U+8981 U+6C42, U+6807 U+51C6, U+578B U+53F7,
    U+540D U+79F0 *)
Definition heading_keywords : list pystr :=
  [[0x89C4; 0x683C]; [0x53C2; 0x6570]; [0x6280; 0x672F]; [0x5C3A; 0x5BF8];
   [0x8BF4; 0x660E]; [0x8981; 0x6C42]; [0x6807; 0x51C6]; [0x578B; 0x53F7];
   [0x540D; 0x79F0]].

(** [detect_heading(text)]; the second parameter [font_sizes] of the
    source is never read. *)
Definition detect_heading (db : unicode_db) (text : option pystr) : bool :=
  if negb (truthy text) || len_lt (strip (or_empty text)) 2 then false
  else
    let text := or_empty text in
    let text_upper := upper db (strip text) in
    if pystr_eqb text_upper (strip text) && len_lt (strip text) 50 then true
    else if re_match (re_numbered db) (strip text) then true
    else existsb (fun keyword => contains keyword text) heading_keywords.

(** [format_table(table_data)] *)
Definition format_table (table_data : table) : pystr :=
  if is_nil table_data || negb (table_has_content table_data) then []
  else
    let filtered_table := filter row_has_content table_data in
    match filtered_table with
    | [] => []
    | first :: others =>
        let header := render_row first in
        let separator := render_separator first in
        join [ch_nl] (header :: separator :: map render_row others)
    end.

(** ["## " U+7B2C " {page_num} " U+9875 "\n\n"] *)
Definition page_heading (page_num : nat) : pystr :=
  [0x23; 0x23; 0x20; 0x7B2C; 0x20] ++ format_int page_num
  ++ [0x20; 0x9875] ++ nlnl.

(** ["### " U+8868 U+683C " {i+1}\n\n"] *)
Definition table_heading (i : nat) : pystr :=
  [0x23; 0x23; 0x23; 0x20; 0x8868; 0x683C; 0x20] ++ format_int (i + 1)
  ++ nlnl.

(** The body of the loop over the paragraphs of a page. *)
Definition render_paragraph (db : unicode_db) (paragraph : pystr)
  : list pystr :=
  if truthy (Some (strip paragraph)) then
    if detect_heading db (Some (strip paragraph))
    then [str "### " ++ strip paragraph ++ nlnl]
    else [strip paragraph ++ nlnl]
  else [].

(** What the branch [if text:] of the loop over the pages appends. *)
Definition render_text (db : unicode_db) (page_num : nat)
  (text : option pystr) : list pystr :=
  if truthy text then
    let cleaned_text := clean_text text in
    let paragraphs := split nlnl cleaned_text in
    [page_heading page_num]
    ++ flat_map (render_paragraph db) paragraphs
    ++ [rule]
  else [].

(** The body of the loop over the tables of a page, at index [i]. *)
Definition render_table (i : nat) (t : table) : list pystr :=
  if negb (is_nil t) && table_has_content t then
    table_heading i ::
    (let table_markdown := format_table t in
     if truthy (Some table_markdown) then [table_markdown; nlnl] else [])
  else [].

Fixpoint render_tables_from (i : nat) (tables : list table) : list pystr :=
  match tables with
  | [] => []
  | t :: rest => render_table i t ++ render_tables_from (S i) rest
  end.

(** What the branch [if tables:] appends. *)
Definition render_tables (tables : list table) : list pystr :=
  if is_nil tables then [] else render_tables_from 0 tables.

(** What one turn of the loop over the pages appends. *)
Definition render_page (db : unicode_db) (page_num : nat)
  (text : option pystr) (tables : list table) : list pystr :=
  render_text db page_num text ++ render_tables tables.

(** ["# DM4340 " U+51CF U+901F U+7535 U+673A U+6280 U+672F U+6587 U+6863] *)
Definition title_line : pystr :=
  str "# DM4340 "
  ++ [0x51CF; 0x901F; 0x7535; 0x673A; 0x6280; 0x672F; 0x6587; 0x6863]
  ++ nlnl.

(** ["*" U+6587 U+6863 U+9875 U+6570 ": {total_pages}*\n\n"] *)
Definition page_count_line (total_pages : nat) : pystr :=
  [0x2A; 0x6587; 0x6863; 0x9875; 0x6570; 0x3A; 0x20]
  ++ format_int total_pages ++ str "*" ++ nlnl.

(** The loop over the pages, [markdown_content] being the list built so
    far. *)
Fixpoint extract_pages (db : unicode_db) (page_num : nat)
  (pages : list page) (markdown_content : list pystr)
  : outcome (list pystr) :=
  match pages with
  | [] => Ok markdown_content
  | p :: rest =>
      match extract_text p with
      | Raise e => Raise e
      | Ok text =>
          let markdown_content :=
            markdown_content ++ render_text db page_num text in
          match extract_tables p with
          | Raise e => Raise e
          | Ok tables =>
              extract_pages db (S page_num) rest
                (markdown_content ++ render_tables tables)
          end
      end
  end.

(** The body of the [try] block of
    [extract_text_with_advanced_formatting]. *)
Definition extract_body (db : unicode_db) (e : env) : outcome (list pystr) :=
  match open_pdf e with
  | Raise err => Raise err
  | Ok pages =>
      let total_pages := List.length pages in
      extract_pages db 1 pages
        [title_line; page_count_line total_pages; rule]
  end.

(** [extract_text_with_advanced_formatting(pdf_path)]: the joined text, or
    [None] after a message when anything raised. *)
Definition extract_text_with_advanced_formatting (db : unicode_db) (e : env)
  (pdf_path : pystr) (w : world) : option pystr * world :=
  let w := log (Pdf_opened pdf_path) w in
  match extract_body db e with
  | Raise err => (None, log (Printed (str "Error processing PDF: " ++ err)) w)
  | Ok markdown_content => (Some (List.concat markdown_content), w)
  end.

(** [pdf_to_markdown_advanced(pdf_path, output_path)] *)
Definition pdf_to_markdown_advanced (db : unicode_db) (e : env)
  (pdf_path : pystr) (output_path : option pystr) (w : world)
  : bool * world :=
  let w := log (Exists_checked pdf_path) w in
  if negb (path_exists e)
  then (false, log (Printed (not_found_message pdf_path)) w)
  else
    let output_path :=
      match output_path with
      | None => path_stem e ++ str "_advanced.md"
      | Some given => given
      end in
    match extract_text_with_advanced_formatting db e pdf_path w with
    | (None, w) => (false, w)
    | (Some markdown_content, w) =>
        match write_file e output_path markdown_content w with
        | (Ok _, w) =>
            (true, log (Printed (success_message pdf_path output_path)) w)
        | (Raise err, w) =>
            (false,
             log (Printed (str "Error writing markdown file: " ++ err)) w)
        end
    end.

End Advanced.

(** ** pdf_to_markdown.py *)

Module Basic.

(** [clean_text(text)] *)
Definition clean_text (text : option pystr) : pystr :=
  if negb (truthy text) then []
  else
    let text := or_empty text in
    let text := re_sub re_spaces [ch_sp] (strip text) in
    escape_html text.

(** The test of line 54:
    [len(paragraph.strip()) < 100 and paragraph.strip().isupper()]. *)
Definition is_heading (db : unicode_db) (paragraph : pystr) : bool :=
  len_lt (strip paragraph) 100 && isupper db (strip paragraph).

Definition render_paragraph (db : unicode_db) (paragraph : pystr)
  : list pystr :=
  if truthy (Some (strip paragraph)) then
    if is_heading db paragraph
    then [str "### " ++ strip paragraph ++ nlnl]
    else [strip paragraph ++ nlnl]
  else [].

Definition render_text (db : unicode_db) (page_num : nat)
  (text : option pystr) : list pystr :=
  if truthy text then
    let cleaned_text := clean_text text in
    let paragraphs := split nlnl cleaned_text in
    [Advanced.page_heading page_num]
    ++ flat_map (render_paragraph db) paragraphs
    ++ [rule]
  else [].

(** ["### " U+8868 U+683C U+6570 U+636E "\n\n"] *)
Definition table_heading : pystr :=
  [0x23; 0x23; 0x23; 0x20; 0x8868; 0x683C; 0x6570; 0x636E] ++ nlnl.

(** The body of the loop over the tables of a page: [table[0]] is the
    header, the rows [table[1:]] follow the separator. *)
Definition render_table (t : table) : list pystr :=
  if negb (is_nil t) && table_has_content t then
    match t with
    | [] => []
    | first :: others =>
        [table_heading;
         render_row first ++ [ch_nl];
         render_separator first ++ [ch_nl]]
        ++ map (fun r => render_row r ++ [ch_nl]) others
        ++ [[ch_nl]]
    end
  else [].

Definition render_tables (tables : list table) : list pystr :=
  if is_nil tables then [] else flat_map render_table tables.

Definition render_page (db : unicode_db) (page_num : nat)
  (text : option pystr) (tables : list table) : list pystr :=
  render_text db page_num text ++ render_tables tables.

Fixpoint extract_pages (db : unicode_db) (page_num : nat)
  (pages : list page) (markdown_content : list pystr)
  : outcome (list pystr) :=
  match pages with
  | [] => Ok markdown_content
  | p :: rest =>
      match extract_text p with
      | Raise e => Raise e
      | Ok text =>
          let markdown_content :=
            markdown_content ++ render_text db page_num text in
          match extract_tables p with
          | Raise e => Raise e
          | Ok tables =>
              extract_pages db (S page_num) rest
                (markdown_content ++ render_tables tables)
          end
      end
  end.

Definition extract_body (db : unicode_db) (e : env) : outcome (list pystr) :=
  match open_pdf e with
  | Raise err => Raise err
  | Ok pages =>
      let total_pages := List.length pages in
      extract_pages db 1 pages
        [Advanced.title_line; Advanced.page_count_line total_pages; rule]
  end.

(** [extract_text_with_formatting(pdf_path)] *)
Definition extract_text_with_formatting (db : unicode_db) (e : env)
  (pdf_path : pystr) (w : world) : option pystr * world :=
  let w := log (Pdf_opened pdf_path) w in
  match extract_body db e with
  | Raise err => (None, log (Printed (str "Error processing PDF: " ++ err)) w)
  | Ok markdown_content => (Some (List.concat markdown_content), w)
  end.

(** [pdf_to_markdown(pdf_path, output_path)] *)
Definition pdf_to_markdown (db : unicode_db) (e : env)
  (pdf_path : pystr) (output_path : option pystr) (w : world)
  : bool * world :=
  let w := log (Exists_checked pdf_path) w in
  if negb (path_exists e)
  then (false, log (Printed (not_found_message pdf_path)) w)
  else
    let output_path :=
      match output_path with
      | None => path_stem e ++ str ".md"
      | Some given => given
      end in
    match extract_text_with_formatting db e pdf_path w with
    | (None, w) => (false, w)
    | (Some markdown_content, w) =>
        match write_file e output_path markdown_content w with
        | (Ok _, w) =>
            (true, log (Printed (success_message pdf_path output_path)) w)
        | (Raise err, w) =>
            (false,
             log (Printed (str "Error writing markdown file: " ++ err)) w)
        end
    end.

End Basic.

(** ** convert_pdf.py *)

Module Simple.

(** [f"## Page {page_num}\n\n"], [f"{text.strip()}\n\n"] and the rule. *)
Definition render_text (page_num : nat) (text : option pystr) : list pystr :=
  if truthy text then
    [str "## Page " ++ format_int page_num ++ nlnl;
     strip (or_empty text) ++ nlnl;
     rule]
  else [].

(** The body of the loop over the tables of a page, at index [i]: the
    rows that have a cell with content, one per line. *)
Definition render_table (i : nat) (t : table) : list pystr :=
  if negb (is_nil t) && table_has_content t then
    [str "### Table " ++ format_int (i + 1) ++ nlnl]
    ++ map (fun r => render_row r ++ [ch_nl]) (filter row_has_content t)
    ++ [[ch_nl]]
  else [].

Fixpoint render_tables_from (i : nat) (tables : list table) : list pystr :=
  match tables with
  | [] => []
  | t :: rest => render_table i t ++ render_tables_from (S i) rest
  end.

Definition render_tables (tables : list table) : list pystr :=
  if is_nil tables then [] else render_tables_from 0 tables.

Definition render_page (page_num : nat) (text : option pystr)
  (tables : list table) : list pystr :=
  render_text page_num text ++ render_tables tables.

Fixpoint extract_pages (page_num : nat) (pages : list page)
  (markdown_content : list pystr) : outcome (list pystr) :=
  match pages with
  | [] => Ok markdown_content
  | p :: rest =>
      match extract_text p with
      | Raise e => Raise e
      | Ok text =>
          let markdown_content :=
            markdown_content ++ render_text page_num text in
          match extract_tables p with
          | Raise e => Raise e
          | Ok tables =>
              extract_pages (S page_num) rest
                (markdown_content ++ render_tables tables)
          end
      end
  end.

(** The part of the [try] block before the output is written. *)
Definition extract_body (e : env) : outcome (list pystr) :=
  match open_pdf e with
  | Raise err => Raise err
  | Ok pages =>
      extract_pages 1 pages
        [str "# " ++ path_stem e ++ nlnl;
         str "*Converted from PDF - " ++ format_int (List.length pages)
         ++ str " pages*" ++ nlnl;
         rule]
  end.

(** [pdf_to_markdown_simple(pdf_path, output_path)] *)
Definition pdf_to_markdown_simple (e : env) (pdf_path : pystr)
  (output_path : option pystr) (w : world) : bool * world :=
  let w := log (Exists_checked pdf_path) w in
  if negb (path_exists e)
  then (false, log (Printed (not_found_message pdf_path)) w)
  else
    let output_path :=
      match output_path with
      | None => path_stem e ++ str ".md"
      | Some given => given
      end in
    let w := log (Pdf_opened pdf_path) w in
    match extract_body e with
    | Raise err =>
        (false, log (Printed (str "Error converting PDF: " ++ err)) w)
    | Ok markdown_content =>
        match write_file e output_path (List.concat markdown_content) w with
        | (Ok _, w) =>
            (true, log (Printed (success_message pdf_path output_path)) w)
        | (Raise err, w) =>
            (false, log (Printed (str "Error converting PDF: " ++ err)) w)
        end
    end.

End Simple.

(** ** The command line of convert_pdf.py

    The block under [if __name__ == "__main__":], [argv] being [sys.argv].
    The result is the exit status of the script: [1] after [sys.exit(1)],
    [0] when the script runs to its end. *)

Definition usage_message : pystr :=
  str "Usage: python convert_pdf.py <input_pdf> [output_md]".

Definition convert_pdf_main (argv : list pystr) (e : env) (w : world)
  : nat * world :=
  if Nat.ltb (List.length argv) 2
  then (1%nat, log (Printed usage_message) w)
  else
    let pdf_path := nth 1 argv [] in
    let output_path :=
      if Nat.ltb 2 (List.length argv) then Some (nth 2 argv []) else None in
    match Simple.pdf_to_markdown_simple e pdf_path output_path w with
    | (true, w) =>
        (0%nat, log (Printed (str "Conversion completed successfully!")) w)
    | (false, w) => (1%nat, log (Printed (str "Conversion failed!")) w)
    end.


(** ** Direct forms of the substitutions

    The functions below do in one pass what [re.sub] does with the three
    substitution patterns; they are proved equal to the runs of the
    matcher and carry the proofs. *)

(** A run of characters of the class [p] becomes one space; [inrun] tells
    that the run has begun. *)
Fixpoint squeeze (p : N -> bool) (inrun : bool) (s : pystr) : pystr :=
  match s with
  | [] => []
  | c :: s' =>
      if p c
      then if inrun then squeeze p true s' else ch_sp :: squeeze p true s'
      else c :: squeeze p false s'
  end.

(** The length of the longest prefix in the class [p]. *)
Fixpoint run_len (p : N -> bool) (s : pystr) : nat :=
  match s with
  | [] => O
  | c :: s' => if p c then S (run_len p s') else O
  end.

(** There is a line break in the white space that [s] starts with. *)
Fixpoint nl_ahead (s : pystr) : bool :=
  match s with
  | [] => false
  | c :: s' => py_isspace c && (is_nl c || nl_ahead s')
  end.

(** From a line break to the last line break of the same stretch of white
    space, everything becomes two line breaks; [dropping] tells that the
    scan is inside such a stretch. *)
Fixpoint fold_lines (dropping : bool) (s : pystr) : pystr :=
  match s with
  | [] => []
  | c :: s' =>
      if dropping
      then if py_isspace c && nl_ahead s'
           then fold_lines true s'
           else fold_lines false s'
      else if is_nl c && nl_ahead s'
           then ch_nl :: ch_nl :: fold_lines true s'
           else c :: fold_lines false s'
  end.

(** The entity that stands for a character. *)
Definition entity (c : N) : pystr :=
  if c =? ch_amp then str "&amp;"
  else if c =? ch_lt then str "&lt;"
  else if c =? ch_gt then str "&gt;"
  else [c].

(** One of [&], [<], [>]. *)
Definition is_special (c : N) : bool :=
  (c =? ch_amp) || (c =? ch_lt) || (c =? ch_gt).

(** No raw [<] or [>], and every [&] starts one of the three entities. *)
Fixpoint well_escaped (s : pystr) : bool :=
  match s with
  | [] => true
  | c :: s' =>
      negb (c =? ch_lt) && negb (c =? ch_gt)
      && (negb (c =? ch_amp)
          || starts_with (str "amp;") s' || starts_with (str "lt;") s'
          || starts_with (str "gt;") s')
      && well_escaped s'
  end.

(** The first character is white space. *)
Definition starts_with_space (s : pystr) : bool :=
  match s with
  | [] => false
  | c :: _ => py_isspace c
  end.

(** The last character is white space. *)
Definition ends_with_space (s : pystr) : bool :=
  starts_with_space (rev s).

(** ** Notions used in the statements and in the proofs *)

(** The rest [\s*\n] of the pattern of blank lines. *)
Definition tail_match : pystr -> option nat :=
  star py_isspace (match_len [(is_nl, Once)]).

(** White space only. *)
Definition all_space (s : pystr) : bool := forallb py_isspace s.

(** None of [&], [<], [>]. *)
Definition plain (s : pystr) : bool :=
  forallb (fun c => negb (is_special c)) s.

(** The first character is a space or a tab. *)
Definition starts_blank (s : pystr) : bool :=
  match s with
  | [] => false
  | c :: _ => is_blank c
  end.

(** No tab, and no space next to a space. *)
Fixpoint tidy (s : pystr) : bool :=
  match s with
  | [] => true
  | c :: s' =>
      (negb (is_blank c) || ((c =? ch_sp) && negb (starts_blank s')))
      && tidy s'
  end.

(** The number of characters of [s] in the class [q]. *)
Definition count_of (q : N -> bool) (s : pystr) : nat :=
  List.length (filter q s).

(** The semicolon that ends an entity. *)
Definition is_semi (c : N) : bool := c =? 59.

(** The first character is a line break. *)
Definition starts_nl (s : pystr) : bool :=
  match s with
  | [] => false
  | c :: _ => is_nl c
  end.

(** [s] brings no third line break in a row, [seen] line breaks standing
    just before it. *)
Fixpoint breaks_ok (seen : nat) (s : pystr) : bool :=
  match s with
  | [] => true
  | c :: s' =>
      if is_nl c then Nat.ltb seen 2 && breaks_ok (S seen) s'
      else breaks_ok 0 s'
  end.

(** No three line breaks in a row. *)
Definition no_triple_break (s : pystr) : bool := breaks_ok 0 s.

(** [clean_text] of advanced_pdf_to_markdown.py before its last step
    [strip]. *)
Definition advanced_pass (s : pystr) : pystr :=
  flat_map entity (fold_lines false (squeeze is_blank false s)).

(** [clean_text] of pdf_to_markdown.py after its first step [strip]. *)
Definition basic_pass (s : pystr) : pystr :=
  flat_map entity (squeeze py_isspace false s).

(** A character table that is right on the ASCII block and takes every
    other character as caseless and as no digit. *)
Definition ascii_db : unicode_db.
Proof.
  refine {| to_upper := fun c => [ascii_upper c];
            is_upper := fun c => (65 <=? c) && (c <=? 90);
            is_lower := fun c => (97 <=? c) && (c <=? 122);
            is_title := fun _ => false;
            is_decimal := fun c => (48 <=? c) && (c <=? 57) |};
    try reflexivity.
  - intros c H1 H2. unfold ascii_upper.
    replace (c <=? 122) with false by (symmetry; apply N.leb_gt; lia).
    rewrite andb_false_r. reflexivity.
  - intros c H1 H2.
    replace (c <=? 90) with false by (symmetry; apply N.leb_gt; lia).
    replace (c <=? 122) with false by (symmetry; apply N.leb_gt; lia).
    rewrite !andb_false_r. auto.
Defined.

(** The condition of the claim C4 for the threshold [limit]: the trimmed
    text is its own upper case and is shorter than [limit], or it starts
    like a numbered heading, or the text holds a keyword. *)
Definition claimed_heading (db : unicode_db) (limit : nat) (text : pystr)
  : bool :=
  (pystr_eqb (upper db (strip text)) (strip text)
   && len_lt (strip text) limit)
  || re_match (re_numbered db) (strip text)
  || existsb (fun keyword => contains keyword text)
       Advanced.heading_keywords.

(** The sentence of the claim C4. *)
Definition long_sentence : pystr :=
  str "this is a long lowercase sentence that should not be a heading at all".

(** U+89C4 U+683C *)
Definition keyword_text : pystr := [0x89C4; 0x683C].

(** Every cell of every row is empty or absent. *)
Definition all_cells_empty (t : table) : bool :=
  forallb (forallb (fun c => negb (truthy c))) t.

(** The table [[['A','B'],['',''],['1','2']]] of the claim C3. *)
Definition example_table : table :=
  [[Some (str "A"); Some (str "B")];
   [Some []; Some []];
   [Some (str "1"); Some (str "2")]].


(** What a conversion on an existing input leaves behind, by what goes
    wrong: the result [r] of the entry point, from the world [w], when the
    extraction gives [body]. *)
Definition conversion_outcome (e : env) (body : outcome (list pystr))
  (w : world) (r : bool * world) : Prop :=
  match body with
  | Raise _ =>
      fst r = false /\ output_file (snd r) = output_file w
      /\ output_opened (snd r) = output_opened w
  | Ok markdown_content =>
      match open_output e with
      | Raise _ => fst r = false /\ output_file (snd r) = output_file w
      | Ok _ =>
          match write_output e with
          | Written =>
              fst r = true
              /\ output_file (snd r) = Some (List.concat markdown_content)
          | WriteFailed _ kept =>
              fst r = false
              /\ output_file (snd r)
                 = Some (firstn kept (List.concat markdown_content))
          end
      end
  end.

(** One of the two calls on the page raises. *)
Definition page_raises (p : page) : bool :=
  match extract_text p, extract_tables p with
  | Ok _, Ok _ => false
  | _, _ => true
  end.

(** The extraction fails: the PDF cannot be opened, or a call on one of
    its pages raises. *)
Definition extraction_fails (e : env) : bool :=
  match open_pdf e with
  | Raise _ => true
  | Ok pages => existsb page_raises pages
  end.

(** No line break at all. *)
Definition no_break (s : pystr) : bool := forallb (fun c => negb (is_nl c)) s.

(** No output file, nothing has happened. *)
Definition empty_world : world := {| output_file := None; events := [] |}.

(** An input of no page whose output can be opened, the write failing
    after nine characters. *)
Definition env_write_fails : env :=
  {| path_exists := true;
     path_stem := str "in";
     open_pdf := Ok [];
     open_output := Ok tt;
     write_output := WriteFailed (str "No space left on device") 9 |}.

(** An input whose second page cannot be read. *)
Definition env_page_fails : env :=
  {| path_exists := true;
     path_stem := str "in";
     open_pdf :=
       Ok [{| extract_text := Ok (Some (str "Hello"));
              extract_tables := Ok [] |};
           {| extract_text := Raise (str "bad page");
              extract_tables := Ok [] |}];
     open_output := Ok tt;
     write_output := Written |}.

(** An input that is not there. *)
Definition env_missing : env :=
  {| path_exists := false;
     path_stem := str "in";
     open_pdf := Raise (str "No such file");
     open_output := Ok tt;
     write_output := Written |}.

(** The least number of characters that a match of [r] consumes. *)
Fixpoint min_len (r : regex) : nat :=
  match r with
  | [] => O
  | (_, Once) :: r' => S (min_len r')
  | (_, Many1) :: r' => S (min_len r')
  | (_, _) :: r' => min_len r'
  end.

(** A character without case that [upper] leaves as it is: an ASCII
    character that is no letter, or a CJK unified ideograph. *)
Definition caseless (c : N) : bool :=
  ((c <? 128) && negb (is_AZ c) && negb ((97 <=? c) && (c <=? 122)))
  || ((0x4E00 <=? c) && (c <=? 0x9FFF)).

(** The text ends with two line breaks. *)
Definition ends_blank (x : pystr) : Prop := exists y, x = y ++ nlnl.

(** The blocks are none, or their text ends with two line breaks. *)
Definition closed (blocks : list pystr) : Prop :=
  List.concat blocks = [] \/ ends_blank (List.concat blocks).

(** The pipe that separates the cells of a row. *)
Definition is_pipe (c : N) : bool := c =? 124.

(** No white space. *)
Definition non_space (c : N) : bool := negb (py_isspace c).

(** White space is a space or a tab only: no line break, nothing else. *)
Definition one_line (s : pystr) : bool :=
  forallb (fun c => negb (py_isspace c) || is_blank c) s.

(** What the two calls on a page give when they do not raise. *)
Definition text_of (p : page) : option pystr :=
  match extract_text p with
  | Ok text => text
  | Raise _ => None
  end.

Definition tables_of (p : page) : list table :=
  match extract_tables p with
  | Ok tables => tables
  | Raise _ => []
  end.

(** The blocks of the pages in page order, the first page having the
    number [page_num], in the three variants. *)
Fixpoint advanced_pages (db : unicode_db) (page_num : nat)
  (pages : list page) : list pystr :=
  match pages with
  | [] => []
  | p :: rest =>
      Advanced.render_page db page_num (text_of p) (tables_of p)
      ++ advanced_pages db (S page_num) rest
  end.

Fixpoint basic_pages (db : unicode_db) (page_num : nat)
  (pages : list page) : list pystr :=
  match pages with
  | [] => []
  | p :: rest =>
      Basic.render_page db page_num (text_of p) (tables_of p)
      ++ basic_pages db (S page_num) rest
  end.

Fixpoint simple_pages (page_num : nat) (pages : list page) : list pystr :=
  match pages with
  | [] => []
  | p :: rest =>
      Simple.render_page page_num (text_of p) (tables_of p)
      ++ simple_pages (S page_num) rest
  end.

(** Everything goes well: the input is there, the extraction does not
    fail, the output can be opened and written. *)
Definition all_goes_well (e : env) : bool :=
  path_exists e && negb (extraction_fails e)
  && match open_output e with Ok _ => true | Raise _ => false end
  && match write_output e with Written => true | WriteFailed _ _ => false end.

(** An input of two pages, the first without text, the second with a
    text. *)
Definition env_two_pages : env :=
  {| path_exists := true;
     path_stem := str "in";
     open_pdf :=
       Ok [{| extract_text := Ok None; extract_tables := Ok [] |};
           {| extract_text := Ok (Some (str "Hello"));
              extract_tables := Ok [] |}];
     open_output := Ok tt;
     write_output := Written |}.

(** * Properties *)

(** ** Character classes *)

Lemma is_nl_eq c : is_nl c = true -> c = ch_nl.
Proof. unfold is_nl. apply N.eqb_eq. Qed.

Lemma is_nl_space c : is_nl c = true -> py_isspace c = true.
Proof. intros H. apply is_nl_eq in H. subst c. reflexivity. Qed.

Lemma is_blank_space c : is_blank c = true -> py_isspace c = true.
Proof.
  unfold is_blank. intros H. apply orb_true_iff in H.
  destruct H as [H | H]; apply N.eqb_eq in H; subst c; reflexivity.
Qed.

Lemma not_space_not_nl c : py_isspace c = false -> is_nl c = false.
Proof.
  intros H. destruct (is_nl c) eqn:E; [|reflexivity].
  apply is_nl_space in E. congruence.
Qed.

Lemma not_space_not_blank c : py_isspace c = false -> is_blank c = false.
Proof.
  intros H. destruct (is_blank c) eqn:E; [|reflexivity].
  apply is_blank_space in E. congruence.
Qed.

(** ** The matcher on the substitution patterns *)

Lemma star_end p s : star p (match_len []) s = Some (run_len p s).
Proof.
  induction s as [|c s IH]; cbn [star run_len]; [reflexivity|].
  destruct (p c); [rewrite IH|]; reflexivity.
Qed.

Lemma match_len_plus p s :
  match_len [(p, Many1)] s =
  match s with
  | [] => None
  | c :: s' => if p c then Some (S (run_len p s')) else None
  end.
Proof.
  destruct s as [|c s]; cbn [match_len]; [reflexivity|].
  destruct (p c); [rewrite star_end|]; reflexivity.
Qed.

Lemma sub_from_plus p s :
  sub_from [(p, Many1)] [ch_sp] 0 s = squeeze p false s
  /\ sub_from [(p, Many1)] [ch_sp] (run_len p s) s = squeeze p true s.
Proof.
  induction s as [|c s [IH0 IH1]].
  - split; reflexivity.
  - split.
    + cbn [sub_from]. rewrite match_len_plus. cbn [squeeze].
      destruct (p c); cbn [app]; congruence.
    + cbn [run_len squeeze]. destruct (p c) eqn:E.
      * cbn [sub_from]. exact IH1.
      * cbn [sub_from]. rewrite match_len_plus, E. congruence.
Qed.

Lemma re_sub_plus p s : re_sub [(p, Many1)] [ch_sp] s = squeeze p false s.
Proof. apply sub_from_plus. Qed.

Lemma tail_match_cons c s :
  tail_match (c :: s) =
  if py_isspace c
  then match tail_match s with
       | Some n => Some (S n)
       | None => if is_nl c then Some 1%nat else None
       end
  else None.
Proof.
  unfold tail_match. cbn [star match_len option_map].
  destruct (py_isspace c) eqn:E; [reflexivity|].
  rewrite (not_space_not_nl _ E). reflexivity.
Qed.

Lemma tail_match_nil : tail_match [] = None.
Proof. reflexivity. Qed.

Lemma tail_match_ahead s :
  nl_ahead s = match tail_match s with Some _ => true | None => false end.
Proof.
  induction s as [|c s IH]; [reflexivity|].
  rewrite tail_match_cons. cbn [nl_ahead]. rewrite IH.
  destruct (py_isspace c), (tail_match s), (is_nl c); reflexivity.
Qed.

Lemma match_len_blank_lines c s :
  match_len re_blank_lines (c :: s) =
  if is_nl c then option_map S (tail_match s) else None.
Proof. reflexivity. Qed.

Lemma sub_from_blank_lines s :
  sub_from re_blank_lines nlnl 0 s = fold_lines false s
  /\ (forall n, tail_match s = Some n ->
        sub_from re_blank_lines nlnl n s = fold_lines true s).
Proof.
  induction s as [|c s [IH0 IH1]].
  - split; [reflexivity|]. intros n H. discriminate H.
  - split.
    + cbn [sub_from fold_lines]. rewrite match_len_blank_lines.
      rewrite tail_match_ahead.
      destruct (is_nl c) eqn:E; cbn [andb].
      * destruct (tail_match s) as [n|] eqn:T; cbn [option_map].
        -- rewrite (IH1 n eq_refl). apply is_nl_eq in E. reflexivity.
        -- rewrite IH0. reflexivity.
      * rewrite IH0. reflexivity.
    + intros n H. rewrite tail_match_cons in H.
      cbn [fold_lines]. rewrite tail_match_ahead.
      destruct (py_isspace c) eqn:E; [|discriminate H].
      destruct (tail_match s) as [m|] eqn:T.
      * injection H as <-. cbn [sub_from andb]. apply IH1. reflexivity.
      * destruct (is_nl c); [|discriminate H].
        injection H as <-. cbn [sub_from andb]. exact IH0.
Qed.

Lemma re_sub_blank_lines s :
  re_sub re_blank_lines nlnl s = fold_lines false s.
Proof. apply sub_from_blank_lines. Qed.

(** ** [strip] *)

Lemma ends_with_space_snoc s c : ends_with_space (s ++ [c]) = py_isspace c.
Proof. unfold ends_with_space. rewrite rev_unit. reflexivity. Qed.

Lemma starts_with_space_app s t :
  s <> [] -> starts_with_space (s ++ t) = starts_with_space s.
Proof. destruct s; [congruence | reflexivity]. Qed.

Lemma ends_with_space_app s t :
  t <> [] -> ends_with_space (s ++ t) = ends_with_space t.
Proof.
  intros H. destruct (exists_last H) as (t' & c & ->).
  rewrite app_assoc, !ends_with_space_snoc. reflexivity.
Qed.

Lemma lstrip_all_space w s : all_space w = true -> lstrip (w ++ s) = lstrip s.
Proof.
  induction w as [|c w IH]; cbn [all_space forallb app lstrip]; [reflexivity|].
  intros H. apply andb_true_iff in H. destruct H as [-> H]. auto.
Qed.

Lemma lstrip_fixed s : starts_with_space s = false -> lstrip s = s.
Proof. destruct s as [|c s]; cbn; [reflexivity|]. intros ->. reflexivity. Qed.

Lemma lstrip_trimmed s : starts_with_space (lstrip s) = false.
Proof.
  induction s as [|c s IH]; [reflexivity|]. cbn [lstrip].
  destruct (py_isspace c) eqn:E; [exact IH|]. cbn. exact E.
Qed.

Lemma lstrip_split s : exists w, s = w ++ lstrip s /\ all_space w = true.
Proof.
  induction s as [|c s (w & Hs & Hw)].
  - exists []. split; reflexivity.
  - cbn [lstrip]. destruct (py_isspace c) eqn:E.
    + exists (c :: w). split; [cbn; congruence|].
      cbn. rewrite E. exact Hw.
    + exists []. split; reflexivity.
Qed.

Lemma rstrip_all_space w : all_space w = true -> rstrip w = [].
Proof.
  induction w as [|c w IH]; [reflexivity|]. cbn [all_space forallb rstrip].
  intros H. apply andb_true_iff in H. destruct H as [-> H].
  rewrite (IH H). reflexivity.
Qed.

Lemma rstrip_cons_nonspace c s :
  py_isspace c = false -> exists r, rstrip (c :: s) = c :: r.
Proof.
  intros E. cbn [rstrip]. destruct (rstrip s) as [|d r].
  - rewrite E. exists []. reflexivity.
  - exists (d :: r). reflexivity.
Qed.

Lemma rstrip_app_nonspace z c s :
  py_isspace c = false -> rstrip (z ++ c :: s) = z ++ rstrip (c :: s).
Proof.
  intros E. destruct (rstrip_cons_nonspace c s E) as (r & Hr). rewrite Hr.
  induction z as [|d z IH]; [exact Hr|].
  cbn [app]. change (rstrip (d :: z ++ c :: s))
    with (match rstrip (z ++ c :: s) with
          | [] => if py_isspace d then [] else [d]
          | x :: r' => d :: x :: r'
          end).
  rewrite IH. destruct z; reflexivity.
Qed.

Lemma rstrip_snoc_space s c w :
  py_isspace c = false -> all_space w = true ->
  rstrip (s ++ c :: w) = s ++ [c].
Proof.
  intros E H. rewrite rstrip_app_nonspace by exact E.
  cbn [rstrip]. rewrite (rstrip_all_space w H), E. reflexivity.
Qed.

Lemma rstrip_fixed s : ends_with_space s = false -> rstrip s = s.
Proof.
  destruct s as [|d s]; [reflexivity|].
  assert (Ne : d :: s <> []) by discriminate.
  destruct (exists_last Ne) as (s' & c & ->).
  rewrite ends_with_space_snoc. intros E.
  apply (rstrip_snoc_space s' c [] E). reflexivity.
Qed.

Lemma rstrip_split s : exists w, s = rstrip s ++ w /\ all_space w = true.
Proof.
  induction s as [|c s (w & Hs & Hw)].
  - exists []. split; reflexivity.
  - cbn [rstrip]. destruct (rstrip s) as [|d r].
    + destruct (py_isspace c) eqn:E.
      * exists (c :: w). cbn in Hs. subst s. split; [reflexivity|].
        cbn. rewrite E. exact Hw.
      * exists w. cbn in Hs. subst s. split; [reflexivity | exact Hw].
    + exists w. split; [cbn [app]; f_equal; exact Hs | exact Hw].
Qed.

Lemma rstrip_trimmed s : ends_with_space (rstrip s) = false.
Proof.
  induction s as [|c s IH]; [reflexivity|]. cbn [rstrip].
  destruct (rstrip s) as [|d r].
  - destruct (py_isspace c) eqn:E; [reflexivity|].
    exact E.
  - change (c :: d :: r) with ([c] ++ d :: r).
    rewrite ends_with_space_app by discriminate. exact IH.
Qed.

Lemma rstrip_keeps_start s :
  starts_with_space s = false -> starts_with_space (rstrip s) = false.
Proof.
  destruct s as [|c s]; [reflexivity|]. cbn [starts_with_space rstrip].
  intros E. destruct (rstrip s); [rewrite E|]; cbn; trivial.
Qed.

Lemma strip_trimmed s :
  starts_with_space (strip s) = false /\ ends_with_space (strip s) = false.
Proof.
  unfold strip. split.
  - apply rstrip_keeps_start, lstrip_trimmed.
  - apply rstrip_trimmed.
Qed.

Lemma strip_fixed s :
  starts_with_space s = false -> ends_with_space s = false -> strip s = s.
Proof.
  intros H1 H2. unfold strip. rewrite (lstrip_fixed _ H1).
  apply rstrip_fixed, H2.
Qed.

Lemma strip_strip s : strip (strip s) = strip s.
Proof. apply strip_fixed; apply strip_trimmed. Qed.

Lemma all_space_app u v : all_space (u ++ v) = all_space u && all_space v.
Proof. apply forallb_app. Qed.

Lemma strip_all_space w : all_space w = true -> strip w = [].
Proof.
  intros H. unfold strip. apply rstrip_all_space.
  destruct (lstrip_split w) as (u & E & _).
  rewrite E, all_space_app in H. apply andb_true_iff in H. apply H.
Qed.

(** A string is its stripped form between two stretches of white space. *)
Lemma strip_split s :
  exists w1 w2,
    s = w1 ++ strip s ++ w2 /\ all_space w1 = true /\ all_space w2 = true.
Proof.
  destruct (lstrip_split s) as (w1 & E1 & H1).
  destruct (rstrip_split (lstrip s)) as (w2 & E2 & H2).
  exists w1, w2. unfold strip. rewrite <- E2. auto.
Qed.

Lemma strip_frame w1 y w2 :
  all_space w1 = true -> all_space w2 = true ->
  starts_with_space y = false -> ends_with_space y = false ->
  strip (w1 ++ y ++ w2) = y.
Proof.
  intros H1 H2 Hs He. unfold strip. rewrite lstrip_all_space by exact H1.
  destruct y as [|a y].
  - cbn [app]. apply rstrip_all_space.
    destruct (lstrip_split w2) as (u & E & _).
    rewrite E, all_space_app in H2. apply andb_true_iff in H2. apply H2.
  - rewrite lstrip_fixed by exact Hs.
    assert (Ne : a :: y <> []) by discriminate.
    destruct (exists_last Ne) as (y' & c & E). rewrite E in *.
    rewrite ends_with_space_snoc in He.
    rewrite <- app_assoc. cbn [app]. apply rstrip_snoc_space; assumption.
Qed.

(** A non-empty string without white space at its ends is one character,
    or has a first and a last character. *)
Lemma trimmed_shape y :
  y <> [] -> starts_with_space y = false -> ends_with_space y = false ->
  (exists a, y = [a] /\ py_isspace a = false)
  \/ (exists a m b,
        y = a :: m ++ [b] /\ py_isspace a = false /\ py_isspace b = false).
Proof.
  intros Ny Hs He. destruct y as [|a y]; [congruence|].
  cbn in Hs. destruct y as [|d y].
  - left. exists a. auto.
  - right. assert (N' : d :: y <> []) by discriminate.
    destruct (exists_last N') as (m & b & E). rewrite E in *.
    change (a :: m ++ [b]) with ((a :: m) ++ [b]) in He.
    rewrite ends_with_space_snoc in He. exists a, m, b. auto.
Qed.

(** A function that works between the characters that are no white space
    commutes with [strip]. *)
Section StripCommutes.

Variable f : pystr -> pystr.
Variable g : N -> pystr.

Hypothesis f_nil : f [] = [].
Hypothesis f_split :
  forall p a q, py_isspace a = false -> f (p ++ a :: q) = f p ++ g a ++ f q.
Hypothesis f_space : forall w, all_space w = true -> all_space (f w) = true.
Hypothesis g_solid :
  forall a, py_isspace a = false ->
    g a <> [] /\ starts_with_space (g a) = false
    /\ ends_with_space (g a) = false.

Lemma strip_commutes s : strip (f s) = f (strip s).
Proof.
  destruct (strip_split s) as (w1 & w2 & E & H1 & H2).
  destruct (strip_trimmed s) as [Hs He].
  destruct (strip s) as [|a0 y0] eqn:Ey.
  - rewrite f_nil. apply strip_all_space, f_space.
    rewrite E, all_space_app. cbn [app]. rewrite H1, H2. reflexivity.
  - assert (Ny : a0 :: y0 <> []) by discriminate.
    destruct (trimmed_shape _ Ny Hs He)
      as [(a & Ea & Ha) | (a & m & b & Ea & Ha & Hb)]; rewrite Ea in *.
    + rewrite E. cbn [app]. rewrite f_split by exact Ha.
      change [a] with ([] ++ a :: []). rewrite f_split by exact Ha.
      rewrite f_nil, app_nil_r. cbn [app].
      destruct (g_solid a Ha) as (_ & G1 & G2).
      apply strip_frame; auto.
    + rewrite E. cbn [app]. rewrite f_split by exact Ha.
      rewrite <- app_assoc. cbn [app]. rewrite f_split by exact Hb.
      change (a :: m ++ [b]) with ([] ++ a :: m ++ [b]).
      rewrite f_split by exact Ha. rewrite f_split by exact Hb.
      rewrite f_nil, app_nil_r. cbn [app].
      destruct (g_solid a Ha) as (Na & G1 & _).
      destruct (g_solid b Hb) as (Nb & _ & G2).
      replace (f w1 ++ g a ++ f m ++ g b ++ f w2)
        with (f w1 ++ (g a ++ f m ++ g b) ++ f w2)
        by (rewrite <- !app_assoc; reflexivity).
      apply strip_frame; auto.
      * rewrite starts_with_space_app; assumption.
      * rewrite app_assoc, ends_with_space_app; assumption.
Qed.

End StripCommutes.

(** ** The three replacements *)

Lemma replace_app old new s t :
  replace old new (s ++ t) = replace old new s ++ replace old new t.
Proof. apply flat_map_app. Qed.

Lemma escape_html_entities s : escape_html s = flat_map entity s.
Proof.
  unfold escape_html. induction s as [|c s IH]; [reflexivity|].
  change (replace ch_amp (str "&amp;") (c :: s))
    with ((if c =? ch_amp then str "&amp;" else [c])
          ++ replace ch_amp (str "&amp;") s).
  rewrite !replace_app, IH. cbn [flat_map]. f_equal.
  unfold entity. destruct (N.eqb_spec c ch_amp) as [->|Na]; [reflexivity|].
  unfold replace. cbn [flat_map app].
  destruct (N.eqb_spec c ch_lt) as [->|Nl]; [reflexivity|].
  cbn [flat_map app]. rewrite app_nil_r.
  destruct (N.eqb_spec c ch_gt) as [->|Ng]; reflexivity.
Qed.

Lemma entity_space c : py_isspace c = true -> entity c = [c].
Proof.
  intros H. unfold entity.
  destruct (N.eqb_spec c ch_amp) as [->|_]; [discriminate H|].
  destruct (N.eqb_spec c ch_lt) as [->|_]; [discriminate H|].
  destruct (N.eqb_spec c ch_gt) as [->|_]; [discriminate H|].
  reflexivity.
Qed.

Lemma entity_plain c : is_special c = false -> entity c = [c].
Proof.
  unfold is_special, entity. intros H.
  apply orb_false_iff in H. destruct H as [H Hg].
  apply orb_false_iff in H. destruct H as [Ha Hl].
  rewrite Ha, Hl, Hg. reflexivity.
Qed.

Lemma entity_solid c :
  py_isspace c = false ->
  entity c <> [] /\ starts_with_space (entity c) = false
  /\ ends_with_space (entity c) = false.
Proof.
  intros H. unfold entity.
  destruct (c =? ch_amp); [repeat split; discriminate|].
  destruct (c =? ch_lt); [repeat split; discriminate|].
  destruct (c =? ch_gt); [repeat split; discriminate|].
  repeat split; [discriminate | exact H | exact H].
Qed.

Lemma entities_split p a q :
  flat_map entity (p ++ a :: q)
  = flat_map entity p ++ entity a ++ flat_map entity q.
Proof. rewrite flat_map_app. reflexivity. Qed.

Lemma entities_space w : all_space w = true -> flat_map entity w = w.
Proof.
  induction w as [|c w IH]; [reflexivity|]. cbn [all_space forallb flat_map].
  intros H. apply andb_true_iff in H. destruct H as [Hc H].
  rewrite (entity_space c Hc). cbn [app]. f_equal. apply IH, H.
Qed.

Lemma entities_plain s : plain s = true -> flat_map entity s = s.
Proof.
  induction s as [|c s IH]; [reflexivity|]. cbn [plain forallb flat_map].
  intros H. apply andb_true_iff in H. destruct H as [Hc H].
  apply negb_true_iff in Hc. rewrite (entity_plain c Hc).
  cbn [app]. f_equal. apply IH, H.
Qed.

Lemma plain_app s t : plain (s ++ t) = plain s && plain t.
Proof. apply forallb_app. Qed.

Lemma well_escaped_entities s : well_escaped (flat_map entity s) = true.
Proof.
  induction s as [|c s IH]; [reflexivity|]. cbn [flat_map].
  destruct (N.eqb_spec c ch_amp) as [->|Na]; [exact IH|].
  destruct (N.eqb_spec c ch_lt) as [->|Nl]; [exact IH|].
  destruct (N.eqb_spec c ch_gt) as [->|Ng]; [exact IH|].
  apply N.eqb_neq in Na, Nl, Ng.
  rewrite entity_plain by (unfold is_special; rewrite Na, Nl, Ng; reflexivity).
  cbn [app well_escaped]. rewrite IH, Na, Nl, Ng. reflexivity.
Qed.

(** ** Runs squeezed to one space *)

Section Squeeze.

Variable p : N -> bool.
Hypothesis p_space : forall c, p c = true -> py_isspace c = true.

Lemma p_nonspace c : py_isspace c = false -> p c = false.
Proof.
  intros H. destruct (p c) eqn:E; [|reflexivity].
  apply p_space in E. congruence.
Qed.

Lemma squeeze_split d u a q :
  p a = false ->
  squeeze p d (u ++ a :: q) = squeeze p d u ++ a :: squeeze p false q.
Proof.
  intros Ha. revert d. induction u as [|c u IH]; intros d.
  - cbn [app squeeze]. rewrite Ha. reflexivity.
  - cbn [app squeeze]. destruct (p c), d; rewrite IH; reflexivity.
Qed.

Lemma squeeze_space d w :
  all_space w = true -> all_space (squeeze p d w) = true.
Proof.
  revert d. induction w as [|c w IH]; intros d; [reflexivity|].
  cbn [all_space forallb squeeze]. intros H.
  apply andb_true_iff in H. destruct H as [Hc H].
  destruct (p c), d; cbn [all_space forallb]; try rewrite Hc;
    try apply IH; try exact H; cbn; apply IH, H.
Qed.

Lemma squeeze_squeeze s : forall d d',
  d || negb d' = true ->
  squeeze p d' (squeeze p d s) = squeeze p d s.
Proof.
  induction s as [|c s IH]; intros d d' H; [reflexivity|].
  cbn [squeeze]. destruct (p c) eqn:E.
  - destruct d.
    + apply IH. reflexivity.
    + destruct d'; [discriminate H|]. cbn [squeeze].
      destruct (p ch_sp); rewrite IH; reflexivity.
  - cbn [squeeze]. rewrite E, IH; reflexivity.
Qed.

Lemma squeeze_run w :
  forallb p w = true -> squeeze p true w = [].
Proof.
  induction w as [|c w IH]; [reflexivity|]. cbn [forallb squeeze].
  intros H. apply andb_true_iff in H. destruct H as [-> H]. auto.
Qed.

Lemma squeeze_plain d s :
  plain s = true -> plain (squeeze p d s) = true.
Proof.
  revert d. induction s as [|c s IH]; intros d; [reflexivity|].
  cbn [plain forallb squeeze]. intros H.
  apply andb_true_iff in H. destruct H as [Hc H].
  destruct (p c), d; cbn [plain forallb]; try rewrite Hc;
    try apply IH; try exact H; cbn; apply IH, H.
Qed.

Lemma squeeze_commutes s :
  strip (squeeze p false s) = squeeze p false (strip s).
Proof.
  apply (strip_commutes (squeeze p false) (fun a => [a])).
  - reflexivity.
  - intros u a q Ha. apply squeeze_split, p_nonspace, Ha.
  - intros w. apply squeeze_space.
  - intros a Ha. repeat split; [discriminate | exact Ha | exact Ha].
Qed.

End Squeeze.

Lemma squeeze_start s :
  starts_blank s = false ->
  squeeze is_blank true s = squeeze is_blank false s.
Proof. destruct s as [|c s]; cbn; [reflexivity|]. intros ->. reflexivity. Qed.

Lemma tidy_fixed s : tidy s = true -> squeeze is_blank false s = s.
Proof.
  induction s as [|c s IH]; [reflexivity|]. cbn [tidy squeeze].
  intros H. apply andb_true_iff in H. destruct H as [Hc H].
  destruct (is_blank c) eqn:E.
  - cbn [negb orb] in Hc. apply andb_true_iff in Hc. destruct Hc as [Hc Hs].
    apply N.eqb_eq in Hc. apply negb_true_iff in Hs.
    rewrite (squeeze_start s Hs), (IH H). congruence.
  - rewrite (IH H). reflexivity.
Qed.

(** ** Blank lines folded *)

Lemma nl_ahead_nonspace p a q :
  py_isspace a = false -> nl_ahead (p ++ a :: q) = nl_ahead p.
Proof.
  intros Ha. induction p as [|c p IH]; cbn [app nl_ahead].
  - rewrite Ha. reflexivity.
  - rewrite IH. reflexivity.
Qed.

Lemma fold_lines_split p a q :
  py_isspace a = false ->
  fold_lines false (p ++ a :: q) = fold_lines false p ++ a :: fold_lines false q
  /\ (nl_ahead p = true ->
      fold_lines true (p ++ a :: q)
      = fold_lines true p ++ a :: fold_lines false q).
Proof.
  intros Ha. induction p as [|c p [IH0 IH1]].
  - split; [|discriminate]. cbn [app fold_lines].
    rewrite (not_space_not_nl a Ha). reflexivity.
  - split.
    + cbn [app fold_lines]. rewrite nl_ahead_nonspace by exact Ha.
      destruct (is_nl c && nl_ahead p) eqn:E.
      * apply andb_true_iff in E. destruct E as [_ E].
        rewrite (IH1 E). reflexivity.
      * rewrite IH0. reflexivity.
    + intros _. cbn [app fold_lines]. rewrite nl_ahead_nonspace by exact Ha.
      destruct (py_isspace c && nl_ahead p) eqn:E.
      * apply andb_true_iff in E. destruct E as [_ E]. exact (IH1 E).
      * exact IH0.
Qed.

Lemma fold_lines_space w : forall d,
  all_space w = true -> all_space (fold_lines d w) = true.
Proof.
  induction w as [|c w IH]; intros d; [reflexivity|].
  cbn [all_space forallb fold_lines]. intros H.
  apply andb_true_iff in H. destruct H as [Hc H].
  destruct d.
  - destruct (py_isspace c && nl_ahead w); apply IH, H.
  - destruct (is_nl c && nl_ahead w); cbn [all_space forallb].
    + apply (IH true H).
    + rewrite Hc. apply (IH false H).
Qed.

Lemma fold_lines_plain s : forall d,
  plain s = true -> plain (fold_lines d s) = true.
Proof.
  induction s as [|c s IH]; intros d; [reflexivity|].
  cbn [plain forallb fold_lines]. intros H.
  apply andb_true_iff in H. destruct H as [Hc H].
  destruct d.
  - destruct (py_isspace c && nl_ahead s); apply IH, H.
  - destruct (is_nl c && nl_ahead s); cbn [plain forallb].
    + apply (IH true H).
    + rewrite Hc. apply (IH false H).
Qed.

Lemma nl_ahead_fold_lines s :
  nl_ahead (fold_lines false s) = nl_ahead s.
Proof.
  induction s as [|c s IH]; [reflexivity|]. cbn [fold_lines nl_ahead].
  destruct (is_nl c) eqn:E; cbn [andb].
  - rewrite (is_nl_space c E).
    destruct (nl_ahead s) eqn:A; [reflexivity|].
    cbn [nl_ahead]. rewrite E, (is_nl_space c E). reflexivity.
  - cbn [nl_ahead]. rewrite IH, E. reflexivity.
Qed.

Lemma nl_ahead_dropped s :
  nl_ahead s = true -> nl_ahead (fold_lines true s) = false.
Proof.
  induction s as [|c s IH]; [discriminate|]. cbn [nl_ahead fold_lines].
  intros H. apply andb_true_iff in H. destruct H as [-> H].
  destruct (nl_ahead s) eqn:A; cbn [andb].
  - apply IH. reflexivity.
  - rewrite nl_ahead_fold_lines. exact A.
Qed.

Lemma fold_lines_twice s : forall d,
  fold_lines false (fold_lines d s) = fold_lines d s.
Proof.
  induction s as [|c s IH]; intros d; [reflexivity|].
  cbn [fold_lines]. destruct d.
  - destruct (py_isspace c && nl_ahead s); apply IH.
  - destruct (is_nl c && nl_ahead s) eqn:E.
    + apply andb_true_iff in E. destruct E as [_ A].
      cbn [fold_lines nl_ahead]. rewrite (nl_ahead_dropped s A).
      cbn. rewrite (IH true). reflexivity.
    + cbn [fold_lines]. rewrite nl_ahead_fold_lines, E, (IH false).
      reflexivity.
Qed.

Lemma starts_blank_fold_lines s :
  starts_blank (fold_lines false s) = starts_blank s.
Proof.
  destruct s as [|c s]; [reflexivity|]. cbn [fold_lines].
  destruct (is_nl c && nl_ahead s) eqn:E; [|reflexivity].
  apply andb_true_iff in E. destruct E as [E _].
  apply is_nl_eq in E. subst c. reflexivity.
Qed.

Lemma tidy_fold_lines s : forall d,
  tidy s = true -> tidy (fold_lines d s) = true.
Proof.
  induction s as [|c s IH]; intros d; [reflexivity|].
  cbn [tidy fold_lines]. intros H.
  apply andb_true_iff in H. destruct H as [Hc H].
  destruct d.
  - destruct (py_isspace c && nl_ahead s); apply IH, H.
  - destruct (is_nl c && nl_ahead s).
    + cbn. apply (IH true H).
    + cbn [tidy]. rewrite starts_blank_fold_lines, Hc. apply (IH false H).
Qed.

Lemma fold_lines_commutes s :
  strip (fold_lines false s) = fold_lines false (strip s).
Proof.
  apply (strip_commutes (fold_lines false) (fun a => [a])).
  - reflexivity.
  - intros u a q Ha. apply fold_lines_split, Ha.
  - intros w. apply fold_lines_space.
  - intros a Ha. repeat split; [discriminate | exact Ha | exact Ha].
Qed.

Lemma entities_commute s :
  strip (flat_map entity s) = flat_map entity (strip s).
Proof.
  apply (strip_commutes (flat_map entity) entity).
  - reflexivity.
  - intros u a q _. apply entities_split.
  - intros w H. rewrite entities_space; exact H.
  - apply entity_solid.
Qed.

Lemma strip_plain s : plain s = true -> plain (strip s) = true.
Proof.
  destruct (strip_split s) as (w1 & w2 & E & _). intros H.
  rewrite E, !plain_app in H.
  apply andb_true_iff in H. destruct H as [_ H].
  apply andb_true_iff in H. apply H.
Qed.

Lemma tidy_squeeze_class p s :
  (forall c, is_blank c = true -> p c = true) ->
  forall d,
    tidy (squeeze p d s) = true
    /\ (d = true -> starts_blank (squeeze p d s) = false).
Proof.
  intros Hp. induction s as [|c s IH]; intros d; [split; reflexivity|].
  cbn [squeeze]. destruct (p c) eqn:E.
  - destruct d.
    + apply IH.
    + split; [|discriminate]. cbn [tidy].
      destruct (IH true) as [-> ->]; reflexivity.
  - assert (B : is_blank c = false).
    { destruct (is_blank c) eqn:B; [|reflexivity].
      apply Hp in B. congruence. }
    split.
    + cbn [tidy]. rewrite B. apply IH.
    + intros _. cbn. exact B.
Qed.

Lemma starts_blank_entities s :
  starts_blank (flat_map entity s) = starts_blank s.
Proof.
  destruct s as [|c s]; [reflexivity|]. cbn [flat_map starts_blank].
  unfold entity.
  destruct (N.eqb_spec c ch_amp) as [->|_]; [reflexivity|].
  destruct (N.eqb_spec c ch_lt) as [->|_]; [reflexivity|].
  destruct (N.eqb_spec c ch_gt) as [->|_]; reflexivity.
Qed.

Lemma tidy_entities s : tidy s = true -> tidy (flat_map entity s) = true.
Proof.
  induction s as [|c s IH]; [reflexivity|]. cbn [tidy flat_map].
  intros H. apply andb_true_iff in H. destruct H as [Hc H].
  specialize (IH H).
  destruct (N.eqb_spec c ch_amp) as [->|Na]; [exact IH|].
  destruct (N.eqb_spec c ch_lt) as [->|Nl]; [exact IH|].
  destruct (N.eqb_spec c ch_gt) as [->|Ng]; [exact IH|].
  apply N.eqb_neq in Na, Nl, Ng.
  rewrite entity_plain by (unfold is_special; rewrite Na, Nl, Ng; reflexivity).
  cbn [app tidy]. rewrite starts_blank_entities, Hc, IH. reflexivity.
Qed.

Lemma breaks_ok_fresh s n :
  starts_nl s = false -> breaks_ok n s = breaks_ok 0 s.
Proof. destruct s as [|c s]; cbn; [reflexivity|]. intros ->. reflexivity. Qed.

Lemma starts_nl_fold_lines s :
  starts_nl (fold_lines false s) = starts_nl s.
Proof.
  destruct s as [|c s]; [reflexivity|]. cbn [fold_lines].
  destruct (is_nl c && nl_ahead s) eqn:E; [|reflexivity].
  apply andb_true_iff in E. destruct E as [E _]. cbn. rewrite E. reflexivity.
Qed.

Lemma nl_ahead_starts_nl s : nl_ahead s = false -> starts_nl s = false.
Proof.
  destruct s as [|c s]; [reflexivity|]. cbn [nl_ahead starts_nl].
  destruct (is_nl c) eqn:E; [|reflexivity].
  rewrite (is_nl_space c E). discriminate.
Qed.

Lemma breaks_ok_fold_lines s :
  breaks_ok 0 (fold_lines false s) = true
  /\ breaks_ok 0 (fold_lines true s) = true.
Proof.
  induction s as [|c s [IH0 IH1]]; [split; reflexivity|]. split.
  - cbn [fold_lines]. destruct (is_nl c) eqn:E; cbn [andb].
    + destruct (nl_ahead s) eqn:A.
      * cbn. rewrite breaks_ok_fresh; [exact IH1|].
        apply nl_ahead_starts_nl, nl_ahead_dropped, A.
      * cbn [breaks_ok]. rewrite E. cbn.
        rewrite breaks_ok_fresh; [exact IH0|].
        rewrite starts_nl_fold_lines. apply nl_ahead_starts_nl, A.
    + cbn [breaks_ok]. rewrite E. exact IH0.
  - cbn [fold_lines]. destruct (py_isspace c && nl_ahead s); assumption.
Qed.

Lemma breaks_ok_entities s : forall n,
  breaks_ok n (flat_map entity s) = breaks_ok n s.
Proof.
  induction s as [|c s IH]; intros n; [reflexivity|]. cbn [flat_map].
  destruct (N.eqb_spec c ch_amp) as [->|Na]; [cbn; apply IH|].
  destruct (N.eqb_spec c ch_lt) as [->|Nl]; [cbn; apply IH|].
  destruct (N.eqb_spec c ch_gt) as [->|Ng]; [cbn; apply IH|].
  apply N.eqb_neq in Na, Nl, Ng.
  rewrite entity_plain by (unfold is_special; rewrite Na, Nl, Ng; reflexivity).
  cbn [app breaks_ok]. rewrite !IH. reflexivity.
Qed.

(** ** [clean_text] in one pass *)

Lemma lstrip_app_solid x g y :
  g <> [] -> starts_with_space g = false ->
  lstrip (x ++ g ++ y) = lstrip x ++ g ++ y.
Proof.
  intros Ng Hs. destruct (lstrip_split x) as (w & E & Hw).
  rewrite E at 1. rewrite <- app_assoc, lstrip_all_space by exact Hw.
  apply lstrip_fixed. pose proof (lstrip_trimmed x) as T.
  destruct (lstrip x) as [|c r]; [|exact T].
  cbn [app]. rewrite starts_with_space_app; assumption.
Qed.

Lemma rstrip_frame z w :
  ends_with_space z = false -> all_space w = true -> rstrip (z ++ w) = z.
Proof.
  intros He Hw. destruct z as [|d z]; [apply rstrip_all_space, Hw|].
  assert (Ne : d :: z <> []) by discriminate.
  destruct (exists_last Ne) as (z' & c & E). rewrite E in *.
  rewrite ends_with_space_snoc in He. rewrite <- app_assoc.
  apply rstrip_snoc_space; assumption.
Qed.

Lemma rstrip_app_solid x g y :
  g <> [] -> ends_with_space g = false ->
  rstrip (x ++ g ++ y) = x ++ g ++ rstrip y.
Proof.
  intros Ng He. destruct (rstrip_split y) as (w & E & Hw).
  rewrite E at 1. rewrite !app_assoc. apply rstrip_frame; [|exact Hw].
  pose proof (rstrip_trimmed y) as T.
  destruct (rstrip y) as [|c r].
  - rewrite app_nil_r, ends_with_space_app; assumption.
  - rewrite ends_with_space_app by discriminate. exact T.
Qed.

Lemma strip_around x g y :
  g <> [] -> starts_with_space g = false -> ends_with_space g = false ->
  strip (x ++ g ++ y) = lstrip x ++ g ++ rstrip y.
Proof.
  intros Ng Hs He. unfold strip.
  rewrite lstrip_app_solid by assumption.
  apply rstrip_app_solid; assumption.
Qed.

(** What holds of [strip (f s)] for any [f] that replaces the characters
    that are no white space by their entities and rewrites the white
    space between them. *)
Section Pipeline.

Variable f : pystr -> pystr.

Hypothesis f_nil : f [] = [].
Hypothesis f_split :
  forall p a q,
    py_isspace a = false -> f (p ++ a :: q) = f p ++ entity a ++ f q.

Lemma pipeline_last u a :
  py_isspace a = false -> strip (f (u ++ [a])) = lstrip (f u) ++ entity a.
Proof.
  intros Ha. rewrite f_split, f_nil by exact Ha.
  destruct (entity_solid a Ha) as (Ne & Hs & He).
  rewrite strip_around by assumption.
  cbn [rstrip]. rewrite app_nil_r. reflexivity.
Qed.

Lemma pipeline_first c v :
  py_isspace c = false -> strip (f (c :: v)) = entity c ++ rstrip (f v).
Proof.
  intros Hc. change (c :: v) with ([] ++ c :: v).
  rewrite f_split, f_nil by exact Hc.
  destruct (entity_solid c Hc) as (Ne & Hs & He).
  rewrite strip_around by assumption. reflexivity.
Qed.

Lemma pipeline_left u :
  ends_with_space u = false -> strip (f u) = lstrip (f u).
Proof.
  destruct u as [|d u]; [rewrite f_nil; reflexivity|].
  assert (Ne : d :: u <> []) by discriminate.
  destruct (exists_last Ne) as (u' & a & E). rewrite E.
  rewrite ends_with_space_snoc. intros Ha.
  rewrite pipeline_last by exact Ha.
  rewrite f_split, f_nil by exact Ha.
  destruct (entity_solid a Ha) as (Ng & Hs & He).
  rewrite lstrip_app_solid by assumption.
  rewrite app_nil_r. reflexivity.
Qed.

Lemma pipeline_right v :
  starts_with_space v = false -> strip (f v) = rstrip (f v).
Proof.
  destruct v as [|c v]; [rewrite f_nil; reflexivity|].
  cbn [starts_with_space]. intros Hc.
  rewrite pipeline_first by exact Hc.
  change (c :: v) with ([] ++ c :: v).
  rewrite f_split, f_nil by exact Hc.
  destruct (entity_solid c Hc) as (Ne & Hs & He).
  rewrite (rstrip_app_solid [] (entity c) (f v)) by assumption.
  reflexivity.
Qed.

(** A character that is no white space, between two pieces that do not
    touch it with white space. *)
Lemma pipeline_around u c v :
  py_isspace c = false ->
  ends_with_space u = false -> starts_with_space v = false ->
  strip (f (u ++ c :: v)) = strip (f u) ++ entity c ++ strip (f v).
Proof.
  intros Hc Hu Hv. rewrite f_split by exact Hc.
  destruct (entity_solid c Hc) as (Ne & Hs & He).
  rewrite strip_around by assumption.
  rewrite pipeline_left, pipeline_right by assumption. reflexivity.
Qed.

(** A stretch [m] between two characters that are no white space. *)
Lemma pipeline_between u a m c v :
  py_isspace a = false -> py_isspace c = false ->
  strip (f (u ++ [a] ++ m ++ c :: v))
  = strip (f (u ++ [a])) ++ f m ++ strip (f (c :: v)).
Proof.
  intros Ha Hc. rewrite pipeline_last, pipeline_first by assumption.
  cbn [app]. rewrite f_split by exact Ha. rewrite f_split by exact Hc.
  destruct (entity_solid a Ha) as (Na & Hsa & _).
  destruct (entity_solid c Hc) as (Nc & _ & Hec).
  replace (f u ++ entity a ++ f m ++ entity c ++ f v)
    with (f u ++ (entity a ++ f m ++ entity c) ++ f v)
    by (rewrite <- !app_assoc; reflexivity).
  rewrite strip_around.
  - rewrite <- !app_assoc. reflexivity.
  - destruct (entity a); [congruence | discriminate].
  - rewrite starts_with_space_app; assumption.
  - rewrite app_assoc, ends_with_space_app; assumption.
Qed.

End Pipeline.

Lemma advanced_clean_text_pass s :
  Advanced.clean_text (Some s) = strip (advanced_pass s).
Proof.
  destruct s as [|c s]; [reflexivity|].
  unfold Advanced.clean_text, advanced_pass, re_blanks.
  cbn [truthy negb or_empty]. change [ch_nl; ch_nl] with nlnl.
  rewrite re_sub_plus, re_sub_blank_lines, escape_html_entities.
  reflexivity.
Qed.

Lemma basic_clean_text_inner s :
  Basic.clean_text (Some s) = basic_pass (strip s).
Proof.
  destruct s as [|c s]; [reflexivity|].
  unfold Basic.clean_text, basic_pass, re_spaces.
  cbn [truthy negb or_empty].
  rewrite re_sub_plus, escape_html_entities. reflexivity.
Qed.

Lemma advanced_pass_split p a q :
  py_isspace a = false ->
  advanced_pass (p ++ a :: q)
  = advanced_pass p ++ entity a ++ advanced_pass q.
Proof.
  intros Ha. unfold advanced_pass.
  rewrite (squeeze_split is_blank false p a q (not_space_not_blank a Ha)).
  rewrite (proj1 (fold_lines_split _ a _ Ha)).
  apply entities_split.
Qed.

Lemma basic_pass_split p a q :
  py_isspace a = false ->
  basic_pass (p ++ a :: q) = basic_pass p ++ entity a ++ basic_pass q.
Proof.
  intros Ha. unfold basic_pass.
  rewrite (squeeze_split py_isspace false p a q Ha).
  apply entities_split.
Qed.

Lemma advanced_pass_commutes s :
  strip (advanced_pass s) = advanced_pass (strip s).
Proof.
  unfold advanced_pass.
  rewrite entities_commute, fold_lines_commutes.
  rewrite (squeeze_commutes is_blank is_blank_space). reflexivity.
Qed.

Lemma basic_pass_commutes s : strip (basic_pass s) = basic_pass (strip s).
Proof.
  unfold basic_pass.
  rewrite entities_commute, (squeeze_commutes py_isspace); auto.
Qed.

Lemma basic_clean_text_pass s :
  Basic.clean_text (Some s) = strip (basic_pass s).
Proof. rewrite basic_clean_text_inner, basic_pass_commutes. reflexivity. Qed.

Lemma advanced_clean_text_plain s :
  plain s = true ->
  Advanced.clean_text (Some s)
  = fold_lines false (squeeze is_blank false (strip s)).
Proof.
  intros H. rewrite advanced_clean_text_pass, advanced_pass_commutes.
  unfold advanced_pass. apply entities_plain, fold_lines_plain.
  apply squeeze_plain, strip_plain, H.
Qed.

Lemma basic_clean_text_plain s :
  plain s = true ->
  Basic.clean_text (Some s) = squeeze py_isspace false (strip s).
Proof.
  intros H. rewrite basic_clean_text_inner. unfold basic_pass.
  apply entities_plain, squeeze_plain, strip_plain, H.
Qed.

(** ** Characters that are no white space are kept *)

Section Kept.

Variable q : N -> bool.
Hypothesis q_nonspace : forall c, py_isspace c = true -> q c = false.

Lemma count_of_app u v : count_of q (u ++ v) = (count_of q u + count_of q v)%nat.
Proof. unfold count_of. rewrite filter_app. apply length_app. Qed.

Lemma count_of_space w : all_space w = true -> count_of q w = O.
Proof.
  induction w as [|c w IH]; [reflexivity|]. cbn [all_space forallb].
  intros H. apply andb_true_iff in H. destruct H as [Hc H].
  unfold count_of in *. cbn [filter]. rewrite (q_nonspace c Hc). apply IH, H.
Qed.

Lemma count_of_strip s : count_of q (strip s) = count_of q s.
Proof.
  destruct (strip_split s) as (w1 & w2 & E & H1 & H2). rewrite E at 2.
  rewrite !count_of_app, (count_of_space w1 H1), (count_of_space w2 H2).
  lia.
Qed.

Lemma count_of_squeeze p s :
  (forall c, p c = true -> py_isspace c = true) ->
  forall d, count_of q (squeeze p d s) = count_of q s.
Proof.
  intros Hp. unfold count_of.
  induction s as [|c s IH]; intros d; [reflexivity|]. cbn [squeeze filter].
  destruct (p c) eqn:E.
  - rewrite (q_nonspace c (Hp c E)). destruct d; [apply IH|].
    cbn [filter]. rewrite (q_nonspace ch_sp eq_refl). apply IH.
  - cbn [filter]. destruct (q c); cbn [List.length]; rewrite IH; reflexivity.
Qed.

Lemma count_of_fold_lines s :
  count_of q (fold_lines false s) = count_of q s
  /\ (nl_ahead s = true -> count_of q (fold_lines true s) = count_of q s).
Proof.
  unfold count_of. induction s as [|c s [IH0 IH1]]; [split; reflexivity|].
  split.
  - cbn [fold_lines]. destruct (is_nl c && nl_ahead s) eqn:E.
    + apply andb_true_iff in E. destruct E as [E A].
      cbn [filter]. rewrite (q_nonspace ch_nl eq_refl).
      rewrite (q_nonspace c (is_nl_space c E)). apply IH1, A.
    + cbn [filter]. destruct (q c); cbn [List.length]; rewrite IH0;
        reflexivity.
  - cbn [nl_ahead fold_lines filter]. intros H.
    apply andb_true_iff in H. destruct H as [Hc H].
    rewrite Hc, (q_nonspace c Hc). cbn [andb].
    destruct (nl_ahead s) eqn:A; [apply IH1; reflexivity | exact IH0].
Qed.

End Kept.

Lemma special_nonspace c : py_isspace c = true -> is_special c = false.
Proof.
  intros H. unfold is_special.
  destruct (N.eqb_spec c ch_amp) as [->|_]; [discriminate H|].
  destruct (N.eqb_spec c ch_lt) as [->|_]; [discriminate H|].
  destruct (N.eqb_spec c ch_gt) as [->|_]; [discriminate H|].
  reflexivity.
Qed.

Lemma semi_nonspace c : py_isspace c = true -> is_semi c = false.
Proof.
  intros H. unfold is_semi.
  destruct (N.eqb_spec c 59) as [->|_]; [discriminate H | reflexivity].
Qed.

Lemma count_of_entities s :
  count_of is_special (flat_map entity s) = count_of is_special s
  /\ count_of is_semi (flat_map entity s)
     = (count_of is_semi s + count_of is_special s)%nat.
Proof.
  unfold count_of. induction s as [|c s [IH1 IH2]]; [split; reflexivity|].
  cbn [flat_map]. rewrite !filter_app, !length_app, IH1, IH2.
  destruct (N.eqb_spec c ch_amp) as [->|Na]; [split; cbn; lia|].
  destruct (N.eqb_spec c ch_lt) as [->|Nl]; [split; cbn; lia|].
  destruct (N.eqb_spec c ch_gt) as [->|Ng]; [split; cbn; lia|].
  apply N.eqb_neq in Na, Nl, Ng.
  assert (P : is_special c = false)
    by (unfold is_special; rewrite Na, Nl, Ng; reflexivity).
  rewrite (entity_plain c P). cbn [filter]. rewrite P.
  destruct (is_semi c); split; cbn; lia.
Qed.

Lemma plain_count s : plain s = true <-> count_of is_special s = O.
Proof.
  unfold plain, count_of. induction s as [|c s IH]; [tauto|].
  cbn [forallb filter]. destruct (is_special c); cbn; [|exact IH].
  split; discriminate.
Qed.

(** A second pass adds a semicolon for every one of [&], [<], [>] in the
    text. *)
Lemma advanced_second_pass s :
  count_of is_semi (Advanced.clean_text (Some (Advanced.clean_text (Some s))))
  = (count_of is_semi (Advanced.clean_text (Some s))
     + count_of is_special s)%nat.
Proof.
  assert (K : forall q t,
             (forall c, py_isspace c = true -> q c = false) ->
             count_of q (fold_lines false (squeeze is_blank false t))
             = count_of q t).
  { intros q t Hq. rewrite (proj1 (count_of_fold_lines q Hq _)).
    apply (count_of_squeeze q Hq is_blank _ is_blank_space). }
  rewrite !advanced_clean_text_pass, !advanced_pass_commutes, strip_strip.
  unfold advanced_pass.
  set (x := fold_lines false (squeeze is_blank false (strip s))).
  rewrite (proj2 (count_of_entities
                    (fold_lines false
                       (squeeze is_blank false (flat_map entity x))))).
  rewrite (K is_semi _ semi_nonspace), (K is_special _ special_nonspace).
  rewrite (proj1 (count_of_entities x)). unfold x.
  rewrite (K is_special _ special_nonspace).
  rewrite (count_of_strip is_special special_nonspace). reflexivity.
Qed.

Lemma basic_second_pass s :
  count_of is_semi (Basic.clean_text (Some (Basic.clean_text (Some s))))
  = (count_of is_semi (Basic.clean_text (Some s))
     + count_of is_special s)%nat.
Proof.
  assert (K : forall q t,
             (forall c, py_isspace c = true -> q c = false) ->
             count_of q (squeeze py_isspace false t) = count_of q t).
  { intros q t Hq.
    apply (count_of_squeeze q Hq py_isspace _ (fun c H => H)). }
  rewrite !basic_clean_text_pass, !basic_pass_commutes, strip_strip.
  unfold basic_pass.
  set (x := squeeze py_isspace false (strip s)).
  rewrite (proj2 (count_of_entities
                    (squeeze py_isspace false (flat_map entity x)))).
  rewrite (K is_semi _ semi_nonspace), (K is_special _ special_nonspace).
  rewrite (proj1 (count_of_entities x)). unfold x.
  rewrite (K is_special _ special_nonspace).
  rewrite (count_of_strip is_special special_nonspace). reflexivity.
Qed.

(** ** Claims on [clean_text] *)

Lemma clean_text_twice_plain (s : pystr) :
  plain s = true ->
  Advanced.clean_text (Some (Advanced.clean_text (Some s)))
  = Advanced.clean_text (Some s)
  /\ Basic.clean_text (Some (Basic.clean_text (Some s)))
     = Basic.clean_text (Some s).
Proof.
  intros H. split.
  - rewrite (advanced_clean_text_plain s H).
    set (t := strip s).
    assert (Ht : plain t = true) by apply strip_plain, H.
    assert (Hy : plain (fold_lines false (squeeze is_blank false t)) = true)
      by (apply fold_lines_plain, squeeze_plain, Ht).
    rewrite (advanced_clean_text_plain _ Hy).
    rewrite fold_lines_commutes.
    rewrite (squeeze_commutes is_blank is_blank_space).
    unfold t. rewrite strip_strip.
    rewrite tidy_fixed; [apply fold_lines_twice|].
    apply tidy_fold_lines.
    apply (tidy_squeeze_class is_blank (strip s) (fun c H => H) false).
  - rewrite (basic_clean_text_plain s H).
    assert (Hy : plain (squeeze py_isspace false (strip s)) = true)
      by (apply squeeze_plain, strip_plain, H).
    rewrite (basic_clean_text_plain _ Hy).
    rewrite (squeeze_commutes py_isspace) by auto.
    rewrite strip_strip. apply squeeze_squeeze. reflexivity.
Qed.

(** C1, as amended: a second pass of [clean_text] changes nothing exactly
    on the strings without [&], [<] and [>], in both variants. *)
Theorem clean_text_idempotent_plain (s : pystr) :
  (Advanced.clean_text (Some (Advanced.clean_text (Some s)))
   = Advanced.clean_text (Some s)
   <-> plain s = true)
  /\ (Basic.clean_text (Some (Basic.clean_text (Some s)))
      = Basic.clean_text (Some s)
      <-> plain s = true).
Proof.
  split; split.
  - intros E. apply plain_count.
    pose proof (advanced_second_pass s) as C. rewrite E in C. lia.
  - apply clean_text_twice_plain.
  - intros E. apply plain_count.
    pose proof (basic_second_pass s) as C. rewrite E in C. lia.
  - apply clean_text_twice_plain.
Qed.

(** C1 on a string with blanks and line breaks. *)
Lemma clean_text_idempotent_plain_witness :
  let s := str "  a " ++ [ch_tab; ch_nl; ch_sp; ch_nl; ch_nl] ++ str "b " in
  plain s = true
  /\ Advanced.clean_text (Some s) = str "a " ++ [ch_nl; ch_nl] ++ str "b"
  /\ Advanced.clean_text (Some (Advanced.clean_text (Some s)))
     = Advanced.clean_text (Some s)
  /\ Basic.clean_text (Some (Basic.clean_text (Some s)))
     = Basic.clean_text (Some s).
Proof.
  intros s. split; [reflexivity|]. split; [reflexivity|].
  destruct (clean_text_idempotent_plain s) as [[_ A] [_ B]].
  split; [apply A | apply B]; reflexivity.
Defined.

(** C1, as stated, fails: a second pass escapes the [&] of the entity that
    the first pass wrote. *)
Lemma clean_text_not_idempotent :
  Advanced.clean_text (Some (str "&")) = str "&amp;"
  /\ Advanced.clean_text (Some (Advanced.clean_text (Some (str "&"))))
     = str "&amp;amp;"
  /\ Advanced.clean_text (Some (Advanced.clean_text (Some (str "&"))))
     <> Advanced.clean_text (Some (str "&"))
  /\ Basic.clean_text (Some (Basic.clean_text (Some (str "<"))))
     <> Basic.clean_text (Some (str "<")).
Proof.
  repeat split; try reflexivity; vm_compute; discriminate.
Qed.

(** What [well_escaped] says, character by character. *)
Lemma well_escaped_at pre c post :
  well_escaped (pre ++ c :: post) = true ->
  c <> ch_lt /\ c <> ch_gt
  /\ (c = ch_amp ->
      starts_with (str "amp;") post = true
      \/ starts_with (str "lt;") post = true
      \/ starts_with (str "gt;") post = true).
Proof.
  induction pre as [|d pre IH]; cbn [app well_escaped]; intros H.
  - apply andb_true_iff in H. destruct H as [H _].
    apply andb_true_iff in H. destruct H as [H Ha].
    apply andb_true_iff in H. destruct H as [Hl Hg].
    apply negb_true_iff, N.eqb_neq in Hl, Hg.
    repeat split; try assumption. intros ->. cbn [N.eqb negb orb] in Ha.
    change (ch_amp =? ch_amp) with true in Ha. cbn [negb orb] in Ha.
    apply orb_true_iff in Ha. destruct Ha as [Ha | Ha]; [|auto].
    apply orb_true_iff in Ha. destruct Ha as [Ha | Ha]; auto.
  - apply andb_true_iff in H. destruct H as [_ H]. apply IH, H.
Qed.

(** C6: the output of [clean_text] holds no raw [<] or [>], and every [&]
    in it starts one of [&amp;], [&lt;], [&gt;]; in both variants and for
    every input, absent input included. *)
Theorem clean_text_well_escaped (text : option pystr) :
  well_escaped (Advanced.clean_text text) = true
  /\ well_escaped (Basic.clean_text text) = true.
Proof.
  destruct text as [s|]; [|split; reflexivity]. split.
  - rewrite advanced_clean_text_pass, advanced_pass_commutes.
    apply well_escaped_entities.
  - rewrite basic_clean_text_inner. apply well_escaped_entities.
Qed.

Lemma fold_lines_breaks k :
  fold_lines true (repeat ch_nl (S k)) = []
  /\ fold_lines false (repeat ch_nl (S (S k))) = nlnl.
Proof.
  assert (A : forall j, nl_ahead (repeat ch_nl (S j)) = true)
    by (intros j; reflexivity).
  assert (T : forall j, fold_lines true (repeat ch_nl (S j)) = []).
  { induction j as [|j IH]; [reflexivity|].
    change (repeat ch_nl (S (S j))) with (ch_nl :: repeat ch_nl (S j)).
    cbn [fold_lines]. rewrite A. exact IH. }
  split; [apply T|].
  change (repeat ch_nl (S (S k))) with (ch_nl :: repeat ch_nl (S k)).
  cbn [fold_lines]. rewrite A, T. reflexivity.
Qed.

Lemma squeeze_breaks k :
  squeeze is_blank false (repeat ch_nl k) = repeat ch_nl k.
Proof. induction k as [|k IH]; cbn; [|rewrite IH]; reflexivity. Qed.

Lemma advanced_pass_breaks k :
  advanced_pass (repeat ch_nl (S (S k))) = nlnl.
Proof.
  unfold advanced_pass.
  rewrite squeeze_breaks, (proj2 (fold_lines_breaks k)). reflexivity.
Qed.

Lemma advanced_pass_blanks b0 b :
  is_blank b0 = true -> forallb is_blank b = true ->
  advanced_pass (b0 :: b) = [ch_sp].
Proof.
  intros H0 H. unfold advanced_pass. cbn [squeeze].
  rewrite H0, (squeeze_run is_blank b H). reflexivity.
Qed.

Lemma basic_pass_spaces m0 m :
  py_isspace m0 = true -> all_space m = true ->
  basic_pass (m0 :: m) = [ch_sp].
Proof.
  intros H0 H. unfold basic_pass. cbn [squeeze].
  rewrite H0, (squeeze_run py_isspace m H). reflexivity.
Qed.

Lemma all_blank_space b : forallb is_blank b = true -> all_space b = true.
Proof.
  induction b as [|c b IH]; [reflexivity|]. cbn [forallb all_space].
  intros H. apply andb_true_iff in H. destruct H as [Hc H].
  rewrite (is_blank_space c Hc). apply IH, H.
Qed.

Lemma clean_text_trimmed_some s :
  starts_with_space (Advanced.clean_text (Some s)) = false
  /\ ends_with_space (Advanced.clean_text (Some s)) = false
  /\ starts_with_space (Basic.clean_text (Some s)) = false
  /\ ends_with_space (Basic.clean_text (Some s)) = false.
Proof.
  rewrite advanced_clean_text_pass, basic_clean_text_pass.
  destruct (strip_trimmed (advanced_pass s)).
  destruct (strip_trimmed (basic_pass s)). auto.
Qed.

Lemma clean_text_runs_some s :
  tidy (Advanced.clean_text (Some s)) = true
  /\ no_triple_break (Advanced.clean_text (Some s)) = true
  /\ tidy (Basic.clean_text (Some s)) = true.
Proof.
  rewrite advanced_clean_text_pass, advanced_pass_commutes.
  rewrite basic_clean_text_inner. unfold advanced_pass, basic_pass.
  split; [|split].
  - apply tidy_entities, tidy_fold_lines.
    apply (tidy_squeeze_class is_blank (strip s) (fun c H => H) false).
  - unfold no_triple_break. rewrite breaks_ok_entities.
    apply breaks_ok_fold_lines.
  - apply tidy_entities.
    apply (tidy_squeeze_class py_isspace (strip s) is_blank_space false).
Qed.

Lemma no_break_squeeze s : forall d,
  no_break (squeeze py_isspace d s) = true.
Proof.
  induction s as [|c s IH]; intros d; [reflexivity|]. cbn [squeeze].
  destruct (py_isspace c) eqn:E.
  - destruct d; [apply IH|]. cbn. apply IH.
  - cbn [no_break forallb]. rewrite (not_space_not_nl c E). apply IH.
Qed.

Lemma no_break_entities s :
  no_break s = true -> no_break (flat_map entity s) = true.
Proof.
  induction s as [|c s IH]; [reflexivity|]. cbn [no_break forallb flat_map].
  intros H. apply andb_true_iff in H. destruct H as [Hc H].
  specialize (IH H). unfold no_break in *. rewrite forallb_app, IH.
  rewrite andb_true_r. unfold entity.
  destruct (c =? ch_amp); [reflexivity|].
  destruct (c =? ch_lt); [reflexivity|].
  destruct (c =? ch_gt); [reflexivity|].
  cbn. rewrite Hc. reflexivity.
Qed.

Lemma split_no_break s : forall cur,
  no_break s = true -> split_from nlnl 0 cur s = [rev cur ++ s].
Proof.
  induction s as [|c s IH]; intros cur H.
  - cbn. rewrite app_nil_r. reflexivity.
  - cbn [no_break forallb] in H. apply andb_true_iff in H.
    destruct H as [Hc H]. apply negb_true_iff in Hc.
    cbn [split_from]. unfold nlnl at 1. cbn [starts_with].
    unfold is_nl in Hc. rewrite N.eqb_sym, Hc. cbn [andb].
    rewrite (IH (c :: cur) H). cbn [rev]. rewrite <- app_assoc.
    reflexivity.
Qed.

Lemma basic_one_paragraph text :
  split nlnl (Basic.clean_text text) = [Basic.clean_text text].
Proof.
  unfold split. destruct text as [s|]; [|reflexivity].
  rewrite split_no_break; [reflexivity|].
  rewrite basic_clean_text_inner. apply no_break_entities, no_break_squeeze.
Qed.

(** C2: [clean_text] of advanced_pdf_to_markdown.py does what the claim
    says: absent input gives the empty string; the result has no white
    space at its ends, no tab, no space next to a space and no three
    line breaks in a row; a character that is no white space is replaced by
    its entity ([&amp;], [&lt;], [&gt;], or itself); a run of spaces and
    tabs between two such characters becomes one space; three or more
    line breaks between two such characters become one blank line.
    [clean_text] of pdf_to_markdown.py does the same but for the line
    breaks: any white space between two such characters becomes one
    space, so that ["a\n\n\nb"] gives ["a b"], and the split of the
    cleaned text into paragraphs at blank lines gives one paragraph. *)
Theorem clean_text_normalizes :
  (Advanced.clean_text None = [] /\ Advanced.clean_text (Some []) = []
   /\ Basic.clean_text None = [] /\ Basic.clean_text (Some []) = [])
  /\ (forall text,
        starts_with_space (Advanced.clean_text text) = false
        /\ ends_with_space (Advanced.clean_text text) = false
        /\ starts_with_space (Basic.clean_text text) = false
        /\ ends_with_space (Basic.clean_text text) = false)
  /\ (forall text,
        tidy (Advanced.clean_text text) = true
        /\ no_triple_break (Advanced.clean_text text) = true
        /\ tidy (Basic.clean_text text) = true)
  /\ (forall u c v,
        py_isspace c = false ->
        ends_with_space u = false -> starts_with_space v = false ->
        Advanced.clean_text (Some (u ++ c :: v))
        = Advanced.clean_text (Some u) ++ entity c
          ++ Advanced.clean_text (Some v)
        /\ Basic.clean_text (Some (u ++ c :: v))
           = Basic.clean_text (Some u) ++ entity c
             ++ Basic.clean_text (Some v))
  /\ (forall u a b0 b c v,
        py_isspace a = false -> py_isspace c = false ->
        is_blank b0 = true -> forallb is_blank b = true ->
        Advanced.clean_text (Some (u ++ [a] ++ (b0 :: b) ++ c :: v))
        = Advanced.clean_text (Some (u ++ [a])) ++ [ch_sp]
          ++ Advanced.clean_text (Some (c :: v))
        /\ Basic.clean_text (Some (u ++ [a] ++ (b0 :: b) ++ c :: v))
           = Basic.clean_text (Some (u ++ [a])) ++ [ch_sp]
             ++ Basic.clean_text (Some (c :: v)))
  /\ (forall u a k c v,
        py_isspace a = false -> py_isspace c = false ->
        Advanced.clean_text (Some (u ++ [a] ++ repeat ch_nl (3 + k) ++ c :: v))
        = Advanced.clean_text (Some (u ++ [a])) ++ [ch_nl; ch_nl]
          ++ Advanced.clean_text (Some (c :: v)))
  /\ (forall u a m0 m c v,
        py_isspace a = false -> py_isspace c = false ->
        py_isspace m0 = true -> all_space m = true ->
        Basic.clean_text (Some (u ++ [a] ++ (m0 :: m) ++ c :: v))
        = Basic.clean_text (Some (u ++ [a])) ++ [ch_sp]
          ++ Basic.clean_text (Some (c :: v)))
  /\ Basic.clean_text (Some (str "a" ++ [ch_nl; ch_nl; ch_nl] ++ str "b"))
     = str "a b"
  /\ (forall text,
        split nlnl (Basic.clean_text text) = [Basic.clean_text text]).
Proof.
  split; [repeat split|].
  split.
  { intros [s|]; [apply clean_text_trimmed_some | repeat split]. }
  split.
  { intros [s|]; [apply clean_text_runs_some | repeat split]. }
  split.
  { intros u c v Hc Hu Hv. rewrite !advanced_clean_text_pass.
    rewrite !basic_clean_text_pass. split.
    - apply (pipeline_around advanced_pass); auto using advanced_pass_split.
    - apply (pipeline_around basic_pass); auto using basic_pass_split. }
  split.
  { intros u a b0 b c v Ha Hc H0 H. rewrite !advanced_clean_text_pass.
    rewrite !basic_clean_text_pass. split.
    - rewrite (pipeline_between advanced_pass)
        by auto using advanced_pass_split.
      rewrite (advanced_pass_blanks b0 b H0 H). reflexivity.
    - rewrite (pipeline_between basic_pass) by auto using basic_pass_split.
      rewrite (basic_pass_spaces b0 b (is_blank_space b0 H0)
                 (all_blank_space b H)).
      reflexivity. }
  split.
  { intros u a k c v Ha Hc. rewrite !advanced_clean_text_pass.
    rewrite (pipeline_between advanced_pass) by auto using advanced_pass_split.
    change (3 + k)%nat with (S (S (S k))).
    rewrite advanced_pass_breaks. reflexivity. }
  split.
  { intros u a m0 m c v Ha Hc H0 H. rewrite !basic_clean_text_pass.
    rewrite (pipeline_between basic_pass) by auto using basic_pass_split.
    rewrite (basic_pass_spaces m0 m H0 H). reflexivity. }
  split; [reflexivity | apply basic_one_paragraph].
Qed.

(** Two of the equations of C2 at concrete strings. *)
Lemma clean_text_normalizes_witness :
  Advanced.clean_text
    (Some ([] ++ [120] ++ (ch_sp :: [ch_tab; ch_sp]) ++ 121 :: []))
  = Advanced.clean_text (Some ([] ++ [120])) ++ [ch_sp]
    ++ Advanced.clean_text (Some (121 :: []))
  /\ Advanced.clean_text
       (Some (str "a" ++ [97] ++ repeat ch_nl (3 + 2) ++ 98 :: str "b"))
     = Advanced.clean_text (Some (str "a" ++ [97])) ++ [ch_nl; ch_nl]
       ++ Advanced.clean_text (Some (98 :: str "b")).
Proof.
  destruct clean_text_normalizes as (_ & _ & _ & _ & Hb & Hn & _).
  split.
  - exact (proj1 (Hb [] 120 ch_sp [ch_tab; ch_sp] 121 []
                    eq_refl eq_refl eq_refl eq_refl)).
  - exact (Hn (str "a") 97 2%nat 98 (str "b") eq_refl eq_refl).
Defined.

(** ** Heading detection *)

Lemma isupper_from_spec db s : forall cased,
  isupper_from db cased s
  = forallb (fun c => negb (is_lower db c || is_title db c)) s
    && (cased || existsb (is_upper db) s).
Proof.
  induction s as [|c s IH]; intros cased.
  - cbn. rewrite orb_false_r. reflexivity.
  - cbn [isupper_from forallb existsb].
    destruct (is_lower db c || is_title db c); [reflexivity|].
    rewrite IH. cbn [negb andb]. rewrite orb_assoc. reflexivity.
Qed.

Lemma detect_heading_guarded db text :
  Advanced.detect_heading db (Some text)
  = negb (len_lt (strip text) 2) && claimed_heading db 50 text.
Proof.
  unfold Advanced.detect_heading, claimed_heading. cbn [or_empty].
  destruct text as [|c s].
  - reflexivity.
  - cbn [truthy negb orb].
    destruct (len_lt (strip (c :: s)) 2); [reflexivity|]. cbn [negb andb].
    destruct (pystr_eqb (upper db (strip (c :: s))) (strip (c :: s))
              && len_lt (strip (c :: s)) 50); [reflexivity|].
    destruct (re_match (re_numbered db) (strip (c :: s))); reflexivity.
Qed.

Lemma detect_heading_keyword db :
  Advanced.detect_heading db (Some keyword_text) = true.
Proof.
  rewrite detect_heading_guarded. unfold claimed_heading.
  change (strip keyword_text) with keyword_text.
  change (existsb (fun keyword => contains keyword keyword_text)
            Advanced.heading_keywords) with true.
  rewrite orb_true_r. reflexivity.
Qed.

Lemma detect_heading_sentence db :
  Advanced.detect_heading db (Some long_sentence) = false.
Proof.
  rewrite detect_heading_guarded. unfold claimed_heading.
  replace (strip long_sentence) with long_sentence by reflexivity.
  replace (len_lt long_sentence 50) with false by reflexivity.
  rewrite andb_false_r.
  replace (existsb (fun keyword => contains keyword long_sentence)
             Advanced.heading_keywords) with false
    by (vm_compute; reflexivity).
  unfold re_match, re_numbered, long_sentence.
  assert (D : is_decimal db 116 = false)
    by (rewrite ascii_is_decimal; [reflexivity | reflexivity]).
  change (match_len [(is_decimal db, Many1); (is_dot, Maybe);
                      (py_isspace, Many1); (is_AZ, Once)] (str _))
    with (if is_decimal db 116
          then option_map S
                 (star (is_decimal db)
                    (match_len [(is_dot, Maybe); (py_isspace, Many1);
                                (is_AZ, Once)])
                    (tl long_sentence))
          else None).
  rewrite D. reflexivity.
Qed.

Lemma basic_is_heading_spec db paragraph :
  Basic.is_heading db paragraph
  = len_lt (strip paragraph) 100
    && forallb (fun c => negb (is_lower db c || is_title db c))
         (strip paragraph)
    && existsb (is_upper db) (strip paragraph).
Proof.
  unfold Basic.is_heading, isupper. rewrite isupper_from_spec.
  cbn [orb]. rewrite andb_assoc. reflexivity.
Qed.

Lemma basic_is_heading_keyword db : Basic.is_heading db keyword_text = false.
Proof.
  rewrite basic_is_heading_spec.
  change (strip keyword_text) with keyword_text. unfold keyword_text.
  cbn [existsb].
  destruct (cjk_caseless db 0x89C4) as (-> & _); [discriminate.. |].
  destruct (cjk_caseless db 0x683C) as (-> & _); [discriminate.. |].
  apply andb_false_r.
Qed.

(** C4, as amended: [detect_heading] is true exactly when the trimmed text
    has at least two characters and the condition of the claim holds with
    the threshold 50; it is true on the keyword U+89C4 U+683C and false on
    the long lower-case sentence.  The test of pdf_to_markdown.py, with
    the threshold 100, is [isupper()] alone: no character of the trimmed
    paragraph is lower case or title case and one is upper case; it is
    false on the keyword. *)
Theorem detect_heading_exactly (db : unicode_db) :
  (forall text,
     Advanced.detect_heading db (Some text)
     = negb (len_lt (strip text) 2) && claimed_heading db 50 text)
  /\ Advanced.detect_heading db None = false
  /\ Advanced.detect_heading db (Some keyword_text) = true
  /\ Advanced.detect_heading db (Some long_sentence) = false
  /\ (forall paragraph,
        Basic.is_heading db paragraph
        = len_lt (strip paragraph) 100
          && forallb (fun c => negb (is_lower db c || is_title db c))
               (strip paragraph)
          && existsb (is_upper db) (strip paragraph))
  /\ Basic.is_heading db keyword_text = false.
Proof.
  split; [apply detect_heading_guarded|].
  split; [reflexivity|].
  split; [apply detect_heading_keyword|].
  split; [apply detect_heading_sentence|].
  split; [apply basic_is_heading_spec | apply basic_is_heading_keyword].
Qed.

(** C4, as stated, fails: ["A"] is its own upper case and shorter than 50,
    and [detect_heading] is false on it; ["1. Introduction"] is a numbered
    heading and U+89C4 U+683C holds a keyword, and the test of
    pdf_to_markdown.py is false on both. *)
Lemma detect_heading_not_claimed :
  claimed_heading ascii_db 50 (str "A") = true
  /\ Advanced.detect_heading ascii_db (Some (str "A")) = false
  /\ claimed_heading ascii_db 100 (str "1. Introduction") = true
  /\ Basic.is_heading ascii_db (str "1. Introduction") = false
  /\ claimed_heading ascii_db 100 keyword_text = true
  /\ Basic.is_heading ascii_db keyword_text = false.
Proof. repeat split; vm_compute; reflexivity. Qed.

(** C9: a text whose trimmed form has fewer than two characters is no
    heading for [detect_heading], whatever its case. *)
Theorem detect_heading_short (db : unicode_db) (text : pystr) :
  len_lt (strip text) 2 = true ->
  Advanced.detect_heading db (Some text) = false.
Proof.
  intros H. rewrite detect_heading_guarded, H. reflexivity.
Qed.

(** C9 on the single letter A between two spaces. *)
Lemma detect_heading_short_witness :
  len_lt (strip (str " A ")) 2 = true
  /\ pystr_eqb (upper ascii_db (strip (str " A "))) (strip (str " A ")) = true
  /\ Advanced.detect_heading ascii_db (Some (str " A ")) = false.
Proof.
  split; [reflexivity|]. split; [reflexivity|].
  apply (detect_heading_short ascii_db (str " A ")). reflexivity.
Defined.

(** ** Tables and pages *)

Lemma row_has_content_spec r :
  row_has_content r = negb (forallb (fun c => negb (truthy c)) r).
Proof.
  unfold row_has_content. induction r as [|c r IH]; [reflexivity|].
  cbn [filter forallb]. destruct (truthy c) eqn:E.
  - cbn [existsb]. rewrite E. reflexivity.
  - exact IH.
Qed.

Lemma table_has_content_spec t :
  table_has_content t = negb (all_cells_empty t).
Proof.
  unfold table_has_content, all_cells_empty.
  induction t as [|r t IH]; [reflexivity|].
  cbn [existsb forallb]. rewrite IH, row_has_content_spec.
  destruct (forallb (fun c => negb (truthy c)) r); reflexivity.
Qed.

Lemma advanced_render_tables_from i before after :
  Advanced.render_tables_from i (before ++ after)
  = Advanced.render_tables_from i before
    ++ Advanced.render_tables_from (i + List.length before) after.
Proof.
  revert i. induction before as [|t before IH]; intros i.
  - cbn. rewrite Nat.add_0_r. reflexivity.
  - cbn [app Advanced.render_tables_from List.length].
    rewrite IH, <- app_assoc, Nat.add_succ_r. reflexivity.
Qed.

Lemma advanced_render_tables tables :
  Advanced.render_tables tables = Advanced.render_tables_from 0 tables.
Proof. destruct tables; reflexivity. Qed.

Lemma basic_render_tables tables :
  Basic.render_tables tables = flat_map Basic.render_table tables.
Proof. destruct tables; reflexivity. Qed.

Lemma simple_render_tables tables :
  Simple.render_tables tables = Simple.render_tables_from 0 tables.
Proof. destruct tables; reflexivity. Qed.

(** C7: a table whose cells are all empty or absent makes [format_table]
    return the empty string, and the loops over the tables of a page
    append nothing for it: no heading, no header row, no separator.  The
    page is rendered as if the table were not there, the tables after it
    keeping their numbers. *)
Theorem empty_table_suppressed (t : table) :
  all_cells_empty t = true ->
  Advanced.format_table t = []
  /\ (forall i, Advanced.render_table i t = [])
  /\ Basic.render_table t = []
  /\ (forall i, Simple.render_table i t = [])
  /\ (forall db page_num text before after,
        Advanced.render_page db page_num text (before ++ t :: after)
        = Advanced.render_text db page_num text
          ++ Advanced.render_tables_from 0 before
          ++ Advanced.render_tables_from (S (List.length before)) after)
  /\ (forall db page_num text before after,
        Basic.render_page db page_num text (before ++ t :: after)
        = Basic.render_page db page_num text (before ++ after)).
Proof.
  intros H.
  assert (C : table_has_content t = false)
    by (rewrite table_has_content_spec, H; reflexivity).
  assert (A : forall i, Advanced.render_table i t = []).
  { intros i. unfold Advanced.render_table. rewrite C, andb_false_r.
    reflexivity. }
  assert (B : Basic.render_table t = []).
  { unfold Basic.render_table. rewrite C, andb_false_r. reflexivity. }
  split.
  { unfold Advanced.format_table. rewrite C, orb_true_r. reflexivity. }
  split; [exact A|]. split; [exact B|].
  split.
  { intros i. unfold Simple.render_table. rewrite C, andb_false_r.
    reflexivity. }
  split.
  - intros db page_num text before after. unfold Advanced.render_page.
    rewrite advanced_render_tables, advanced_render_tables_from.
    cbn [Advanced.render_tables_from]. rewrite A. reflexivity.
  - intros db page_num text before after. unfold Basic.render_page.
    rewrite !basic_render_tables, !flat_map_app. cbn [flat_map].
    rewrite B. reflexivity.
Qed.

(** C7 on a table of three rows without content. *)
Lemma empty_table_suppressed_witness :
  let t : table := [[None; Some []]; []; [Some []]] in
  all_cells_empty t = true
  /\ Advanced.format_table t = []
  /\ Basic.render_page ascii_db 1 None ([example_table] ++ t :: [])
     = Basic.render_page ascii_db 1 None ([example_table] ++ []).
Proof.
  intros t. split; [reflexivity|].
  destruct (empty_table_suppressed t eq_refl) as (F & _ & _ & _ & _ & P).
  split; [exact F | apply P].
Defined.

(** C3: [format_table] gives the header row, the separator row and the
    one data row for the table [[['A','B'],['',''],['1','2']]], the empty
    row being filtered out.  The loop of pdf_to_markdown.py filters no
    row: it renders the empty row as [|  |  |].  The loop of
    convert_pdf.py filters the empty row as well. *)
Theorem format_table_example :
  Advanced.format_table example_table
  = join [ch_nl] [str "| A | B |"; str "| --- | --- |"; str "| 1 | 2 |"]
  /\ Basic.render_table example_table
     = [Basic.table_heading;
        str "| A | B |" ++ [ch_nl];
        str "| --- | --- |" ++ [ch_nl];
        str "|  |  |" ++ [ch_nl];
        str "| 1 | 2 |" ++ [ch_nl];
        [ch_nl]]
  /\ Simple.render_table 0 example_table
     = [str "### Table 1" ++ nlnl;
        str "| A | B |" ++ [ch_nl];
        str "| 1 | 2 |" ++ [ch_nl];
        [ch_nl]].
Proof. repeat split. Qed.





Lemma filter_content_nonempty t :
  table_has_content t = true -> filter row_has_content t <> [].
Proof.
  unfold table_has_content. induction t as [|r t IH]; [discriminate|].
  cbn [existsb filter]. destruct (row_has_content r); [discriminate|].
  exact IH.
Qed.

Lemma filter_content_empty t :
  table_has_content t = false -> filter row_has_content t = [].
Proof.
  unfold table_has_content. induction t as [|r t IH]; [reflexivity|].
  cbn [existsb filter]. destruct (row_has_content r); [discriminate|].
  exact IH.
Qed.

(** The first test of [format_table] decides nothing that the filter does
    not decide. *)
Lemma format_table_filtered t :
  Advanced.format_table t
  = match filter row_has_content t with
    | [] => []
    | first :: others =>
        join [ch_nl]
          (render_row first :: render_separator first
           :: map render_row others)
    end.
Proof.
  unfold Advanced.format_table. destruct (table_has_content t) eqn:C.
  - destruct t as [|r t]; [discriminate C | reflexivity].
  - rewrite orb_true_r, (filter_content_empty t C). reflexivity.
Qed.

Lemma format_table_content t :
  table_has_content t = true -> Advanced.format_table t <> [].
Proof.
  intros C. rewrite format_table_filtered.
  pose proof (filter_content_nonempty t C) as F.
  destruct (filter row_has_content t) as [|first others]; [congruence|].
  discriminate.
Qed.

Lemma render_table_cases (i : nat) (t : table) :
  Advanced.render_table i t
  = if table_has_content t
    then [Advanced.table_heading i; Advanced.format_table t; nlnl]
    else [].
Proof.
  unfold Advanced.render_table. destruct (table_has_content t) eqn:C.
  - destruct t as [|r t]; [discriminate C|]. cbn [is_nil negb andb].
    pose proof (format_table_content (r :: t) C) as F.
    destruct (Advanced.format_table (r :: t)); [congruence | reflexivity].
  - rewrite andb_false_r. reflexivity.
Qed.



(** ** The entry points *)

Lemma output_opened_log ev w :
  output_opened (log ev w)
  = output_opened w
    || match ev with Output_opened _ => true | _ => false end.
Proof.
  unfold output_opened, log. cbn [events]. rewrite existsb_app.
  cbn [existsb]. rewrite orb_false_r. reflexivity.
Qed.

Lemma pdf_opened_log ev w :
  pdf_opened (log ev w)
  = pdf_opened w || match ev with Pdf_opened _ => true | _ => false end.
Proof.
  unfold pdf_opened, log. cbn [events]. rewrite existsb_app.
  cbn [existsb]. rewrite orb_false_r. reflexivity.
Qed.

Lemma write_file_outcome e output_path data w :
  match open_output e with
  | Raise err =>
      fst (write_file e output_path data w) = Raise err
      /\ output_file (snd (write_file e output_path data w)) = output_file w
  | Ok _ =>
      match write_output e with
      | Written =>
          fst (write_file e output_path data w) = Ok tt
          /\ output_file (snd (write_file e output_path data w)) = Some data
      | WriteFailed err kept =>
          fst (write_file e output_path data w) = Raise err
          /\ output_file (snd (write_file e output_path data w))
             = Some (firstn kept data)
      end
  end.
Proof.
  unfold write_file. destruct (open_output e) as [u|err].
  - destruct (write_output e); split; reflexivity.
  - split; reflexivity.
Qed.

Lemma advanced_outcome db e pdf_path output_path w :
  path_exists e = true ->
  conversion_outcome e (Advanced.extract_body db e) w
    (Advanced.pdf_to_markdown_advanced db e pdf_path output_path w).
Proof.
  intros X. unfold Advanced.pdf_to_markdown_advanced.
  rewrite X. cbn [negb].
  unfold Advanced.extract_text_with_advanced_formatting, conversion_outcome.
  destruct (Advanced.extract_body db e) as [mc|err].
  - set (path := match output_path with
                 | Some given => given
                 | None => path_stem e ++ str "_advanced.md"
                 end).
    set (w1 := log (Pdf_opened pdf_path) (log (Exists_checked pdf_path) w)).
    pose proof (write_file_outcome e path (List.concat mc) w1) as W.
    destruct (open_output e) as [u|err].
    + destruct (write_output e) as [|err kept];
        destruct (write_file e path (List.concat mc) w1) as [[u'|err'] w2];
        cbn [fst snd] in *; destruct W as [W1 W2];
        try discriminate W1; split; try reflexivity; exact W2.
    + destruct (write_file e path (List.concat mc) w1) as [[u'|err'] w2];
        cbn [fst snd] in *; destruct W as [W1 W2];
        try discriminate W1; split; try reflexivity; exact W2.
  - cbn [fst snd]. repeat split.
    rewrite !output_opened_log, !orb_false_r. reflexivity.
Qed.

Lemma basic_outcome db e pdf_path output_path w :
  path_exists e = true ->
  conversion_outcome e (Basic.extract_body db e) w
    (Basic.pdf_to_markdown db e pdf_path output_path w).
Proof.
  intros X. unfold Basic.pdf_to_markdown.
  rewrite X. cbn [negb].
  unfold Basic.extract_text_with_formatting, conversion_outcome.
  destruct (Basic.extract_body db e) as [mc|err].
  - set (path := match output_path with
                 | Some given => given
                 | None => path_stem e ++ str ".md"
                 end).
    set (w1 := log (Pdf_opened pdf_path) (log (Exists_checked pdf_path) w)).
    pose proof (write_file_outcome e path (List.concat mc) w1) as W.
    destruct (open_output e) as [u|err].
    + destruct (write_output e) as [|err kept];
        destruct (write_file e path (List.concat mc) w1) as [[u'|err'] w2];
        cbn [fst snd] in *; destruct W as [W1 W2];
        try discriminate W1; split; try reflexivity; exact W2.
    + destruct (write_file e path (List.concat mc) w1) as [[u'|err'] w2];
        cbn [fst snd] in *; destruct W as [W1 W2];
        try discriminate W1; split; try reflexivity; exact W2.
  - cbn [fst snd]. repeat split.
    rewrite !output_opened_log, !orb_false_r. reflexivity.
Qed.

Lemma simple_outcome e pdf_path output_path w :
  path_exists e = true ->
  conversion_outcome e (Simple.extract_body e) w
    (Simple.pdf_to_markdown_simple e pdf_path output_path w).
Proof.
  intros X. unfold Simple.pdf_to_markdown_simple.
  rewrite X. cbn [negb]. unfold conversion_outcome.
  destruct (Simple.extract_body e) as [mc|err].
  - set (path := match output_path with
                 | Some given => given
                 | None => path_stem e ++ str ".md"
                 end).
    set (w1 := log (Pdf_opened pdf_path) (log (Exists_checked pdf_path) w)).
    pose proof (write_file_outcome e path (List.concat mc) w1) as W.
    destruct (open_output e) as [u|err].
    + destruct (write_output e) as [|err kept];
        destruct (write_file e path (List.concat mc) w1) as [[u'|err'] w2];
        cbn [fst snd] in *; destruct W as [W1 W2];
        try discriminate W1; split; try reflexivity; exact W2.
    + destruct (write_file e path (List.concat mc) w1) as [[u'|err'] w2];
        cbn [fst snd] in *; destruct W as [W1 W2];
        try discriminate W1; split; try reflexivity; exact W2.
  - cbn [fst snd]. repeat split.
    rewrite !output_opened_log, !orb_false_r. reflexivity.
Qed.

Lemma advanced_extract_raises db pages : forall page_num markdown_content,
  existsb page_raises pages = true ->
  exists err,
    Advanced.extract_pages db page_num pages markdown_content = Raise err.
Proof.
  induction pages as [|p pages IH]; intros page_num markdown_content H;
    [discriminate H|].
  cbn [existsb] in H. cbn [Advanced.extract_pages].
  unfold page_raises in H.
  destruct (extract_text p) as [text|err]; [|exists err; reflexivity].
  destruct (extract_tables p) as [tables|err]; [|exists err; reflexivity].
  apply IH, H.
Qed.

Lemma basic_extract_raises db pages : forall page_num markdown_content,
  existsb page_raises pages = true ->
  exists err,
    Basic.extract_pages db page_num pages markdown_content = Raise err.
Proof.
  induction pages as [|p pages IH]; intros page_num markdown_content H;
    [discriminate H|].
  cbn [existsb] in H. cbn [Basic.extract_pages].
  unfold page_raises in H.
  destruct (extract_text p) as [text|err]; [|exists err; reflexivity].
  destruct (extract_tables p) as [tables|err]; [|exists err; reflexivity].
  apply IH, H.
Qed.

Lemma simple_extract_raises pages : forall page_num markdown_content,
  existsb page_raises pages = true ->
  exists err, Simple.extract_pages page_num pages markdown_content = Raise err.
Proof.
  induction pages as [|p pages IH]; intros page_num markdown_content H;
    [discriminate H|].
  cbn [existsb] in H. cbn [Simple.extract_pages].
  unfold page_raises in H.
  destruct (extract_text p) as [text|err]; [|exists err; reflexivity].
  destruct (extract_tables p) as [tables|err]; [|exists err; reflexivity].
  apply IH, H.
Qed.

Lemma extraction_fails_raises db e :
  extraction_fails e = true ->
  (exists err, Advanced.extract_body db e = Raise err)
  /\ (exists err, Basic.extract_body db e = Raise err)
  /\ (exists err, Simple.extract_body e = Raise err).
Proof.
  unfold extraction_fails, Advanced.extract_body, Basic.extract_body,
    Simple.extract_body.
  destruct (open_pdf e) as [pages|err]; intros H.
  - split; [apply advanced_extract_raises, H|].
    split; [apply basic_extract_raises, H | apply simple_extract_raises, H].
  - repeat split; exists err; reflexivity.
Qed.

(** C5, as amended: when the extraction fails, the three entry points
    return [False] without opening the output, whose file stays as it
    was: what was built so far is dropped.  When the output cannot be
    opened they return [False] and the file stays as it was.  When the
    write fails after the output was opened they return [False], and the
    file holds what the failed write left of the text.  The extraction
    fails as soon as the PDF cannot be opened or a call on a page
    raises. *)
Theorem processing_failure (db : unicode_db) (e : env)
  (pdf_path : pystr) (output_path : option pystr) (w : world) :
  path_exists e = true ->
  conversion_outcome e (Advanced.extract_body db e) w
    (Advanced.pdf_to_markdown_advanced db e pdf_path output_path w)
  /\ conversion_outcome e (Basic.extract_body db e) w
       (Basic.pdf_to_markdown db e pdf_path output_path w)
  /\ conversion_outcome e (Simple.extract_body e) w
       (Simple.pdf_to_markdown_simple e pdf_path output_path w)
  /\ (extraction_fails e = true ->
      (exists err, Advanced.extract_body db e = Raise err)
      /\ (exists err, Basic.extract_body db e = Raise err)
      /\ (exists err, Simple.extract_body e = Raise err)).
Proof.
  intros X. split; [apply advanced_outcome, X|].
  split; [apply basic_outcome, X|].
  split; [apply simple_outcome, X | apply extraction_fails_raises].
Qed.

(** C5 on an input whose second page cannot be read. *)
Lemma processing_failure_witness :
  path_exists env_page_fails = true
  /\ extraction_fails env_page_fails = true
  /\ Advanced.extract_body ascii_db env_page_fails = Raise (str "bad page")
  /\ fst (Advanced.pdf_to_markdown_advanced ascii_db env_page_fails
            (str "in.pdf") None empty_world) = false
  /\ output_file (snd (Advanced.pdf_to_markdown_advanced ascii_db
                         env_page_fails (str "in.pdf") None empty_world))
     = None
  /\ output_opened (snd (Advanced.pdf_to_markdown_advanced ascii_db
                           env_page_fails (str "in.pdf") None empty_world))
     = false.
Proof.
  split; [reflexivity|]. split; [reflexivity|]. split; [reflexivity|].
  exact (proj1 (processing_failure ascii_db env_page_fails (str "in.pdf")
                  None empty_world eq_refl)).
Defined.

(** C5, as stated, fails: the write fails after nine characters, the entry
    point returns [False], and the output file is there, holding the
    first nine characters of the text. *)
Lemma partial_file_left :
  fst (Advanced.pdf_to_markdown_advanced ascii_db env_write_fails
         (str "in.pdf") None empty_world) = false
  /\ output_file (snd (Advanced.pdf_to_markdown_advanced ascii_db
                         env_write_fails (str "in.pdf") None empty_world))
     = Some (str "# DM4340 ")
  /\ output_file (snd (Simple.pdf_to_markdown_simple env_write_fails
                         (str "in.pdf") None empty_world))
     = Some (str "# in" ++ nlnl ++ str "*Co").
Proof. repeat split. Qed.

(** C8: when the input path does not exist, the three entry points return
    [False] after the check and one message: the PDF is not opened, the
    output is not opened, and its file stays as it was. *)
Theorem missing_input (db : unicode_db) (e : env)
  (pdf_path : pystr) (output_path : option pystr) (w : world) :
  path_exists e = false ->
  let w' :=
    log (Printed (not_found_message pdf_path))
      (log (Exists_checked pdf_path) w) in
  Advanced.pdf_to_markdown_advanced db e pdf_path output_path w = (false, w')
  /\ Basic.pdf_to_markdown db e pdf_path output_path w = (false, w')
  /\ Simple.pdf_to_markdown_simple e pdf_path output_path w = (false, w')
  /\ events w'
     = events w
       ++ [Exists_checked pdf_path; Printed (not_found_message pdf_path)]
  /\ output_file w' = output_file w
  /\ pdf_opened w' = pdf_opened w
  /\ output_opened w' = output_opened w.
Proof.
  intros X w'.
  unfold Advanced.pdf_to_markdown_advanced, Basic.pdf_to_markdown,
    Simple.pdf_to_markdown_simple.
  rewrite X. cbn [negb]. repeat split.
  - unfold w', log. cbn [events]. rewrite <- app_assoc. reflexivity.
  - unfold w'. rewrite !pdf_opened_log, !orb_false_r. reflexivity.
  - unfold w'. rewrite !output_opened_log, !orb_false_r. reflexivity.
Qed.

(** C8 on an input that is not there. *)
Lemma missing_input_witness :
  path_exists env_missing = false
  /\ Simple.pdf_to_markdown_simple env_missing (str "in.pdf") None empty_world
     = (false,
        {| output_file := None;
           events := [Exists_checked (str "in.pdf");
                      Printed (str "Error: PDF file 'in.pdf' not found.")] |}).
Proof.
  split; [reflexivity|].
  exact (proj1 (proj2 (proj2 (missing_input ascii_db env_missing
                                (str "in.pdf") None empty_world eq_refl)))).
Defined.

(** * Further properties of the code *)

(** ** Tables *)

(** X1: [format_table] returns the empty string exactly for the tables
    without a cell with content; otherwise its result starts with the
    opening of a row. *)
Theorem format_table_empty_iff (t : table) :
  (Advanced.format_table t = [] <-> table_has_content t = false)
  /\ (starts_with (str "| ") (Advanced.format_table t)
      = table_has_content t).
Proof.
  split.
  - split.
    + intros E. destruct (table_has_content t) eqn:C; [|reflexivity].
      destruct (format_table_content t C E).
    + intros C. rewrite format_table_filtered, (filter_content_empty t C).
      reflexivity.
  - rewrite format_table_filtered. destruct (table_has_content t) eqn:C.
    + pose proof (filter_content_nonempty t C) as F.
      destruct (filter row_has_content t) as [|first others]; [congruence|].
      reflexivity.
    + rewrite (filter_content_empty t C). reflexivity.
Qed.

(** X3: a row without a cell with content changes nothing in the result of
    [format_table], wherever it stands, the first row included. *)
Theorem format_table_skips_row (before after : table) (r : row) :
  row_has_content r = false ->
  Advanced.format_table (before ++ r :: after)
  = Advanced.format_table (before ++ after).
Proof.
  intros H. rewrite !format_table_filtered, !filter_app. cbn [filter].
  rewrite H. reflexivity.
Qed.

(** X3 with an empty first row. *)
Lemma format_table_skips_row_witness :
  row_has_content [None; Some []] = false
  /\ Advanced.format_table
       ([] ++ [None; Some []] :: [[Some (str "A")]; [Some (str "1")]])
     = Advanced.format_table ([] ++ [[Some (str "A")]; [Some (str "1")]]).
Proof.
  split; [reflexivity|].
  apply (format_table_skips_row [] [[Some (str "A")]; [Some (str "1")]]
           [None; Some []]).
  reflexivity.
Defined.

Lemma count_of_join parts :
  parts <> [] ->
  count_of is_pipe (join (str " | ") parts)
  = (Nat.pred (List.length parts)
     + count_of is_pipe (List.concat parts))%nat.
Proof.
  induction parts as [|x parts IH]; [congruence|]. intros _.
  destruct parts as [|y parts].
  - cbn [join List.concat List.length Nat.pred]. rewrite app_nil_r.
    reflexivity.
  - change (join (str " | ") (x :: y :: parts))
      with (x ++ str " | " ++ join (str " | ") (y :: parts)).
    change (List.concat (x :: y :: parts))
      with (x ++ List.concat (y :: parts)).
    rewrite !count_of_app, IH by discriminate.
    change (count_of is_pipe (str " | ")) with 1%nat.
    cbn [List.length Nat.pred]. lia.
Qed.

Lemma concat_dashes (r : row) :
  count_of is_pipe (List.concat (map (fun _ : cell => str "---") r)) = O.
Proof.
  induction r as [|c r IH]; [reflexivity|]. cbn [map List.concat].
  rewrite count_of_app, IH. reflexivity.
Qed.

(** X4: the separator row has one pipe more than the row has cells, and
    so has the row itself but for the pipes inside its cells, which are
    written as they are: header and separator have the same number of
    columns when no cell of the header holds a pipe. *)
Theorem row_columns (r : row) :
  r <> [] ->
  count_of is_pipe (render_separator r) = S (List.length r)
  /\ count_of is_pipe (render_row r)
     = (S (List.length r)
        + count_of is_pipe (List.concat (map cell_text r)))%nat.
Proof.
  intros H. unfold render_separator, render_row.
  rewrite !count_of_app, !count_of_join
    by (destruct r; [congruence | discriminate]).
  rewrite !length_map, concat_dashes.
  change (count_of is_pipe (str "| ")) with 1%nat.
  change (count_of is_pipe (str " |")) with 1%nat.
  destruct r as [|c r]; [congruence|]. cbn [List.length Nat.pred]. lia.
Qed.

(** X4 on a row of two cells, and on a row with a pipe in a cell. *)
Lemma row_columns_witness :
  count_of is_pipe (render_separator [Some (str "A"); None]) = 3%nat
  /\ count_of is_pipe (render_row [Some (str "A"); None]) = 3%nat
  /\ count_of is_pipe (render_row [Some (str "a|b"); None]) = 4%nat.
Proof.
  assert (N2 : forall a : cell, [a; None] <> []) by discriminate.
  destruct (row_columns [Some (str "A"); None] (N2 _)) as [S1 R1].
  destruct (row_columns [Some (str "a|b"); None] (N2 _)) as [_ R2].
  split; [exact S1|]. split; [exact R1 | exact R2].
Defined.

(** X2: the loop over the tables of advanced_pdf_to_markdown.py never
    appends a table heading alone: a table with content gives its
    heading, the table and the two line breaks, the test
    [if table_markdown:] never failing.  The number in the heading is the
    place of the table among the tables of the page, the tables without
    content counted. *)
Theorem table_blocks (before after : list table) (t : table) :
  table_has_content t = true ->
  Advanced.render_tables (before ++ t :: after)
  = Advanced.render_tables before
    ++ [Advanced.table_heading (List.length before);
        Advanced.format_table t; nlnl]
    ++ Advanced.render_tables_from (S (List.length before)) after.
Proof.
  intros C. rewrite !advanced_render_tables, advanced_render_tables_from.
  cbn [Advanced.render_tables_from]. rewrite render_table_cases, C.
  reflexivity.
Qed.

(** X2 on a table that follows a table without content. *)
Lemma table_blocks_witness :
  table_has_content example_table = true
  /\ Advanced.render_tables ([[[None]]] ++ example_table :: [])
     = [Advanced.table_heading 1; Advanced.format_table example_table; nlnl].
Proof.
  split; [reflexivity|].
  exact (eq_trans (table_blocks [[[None]]] [] example_table eq_refl)
           eq_refl).
Defined.

(** ** More on [clean_text] *)

Lemma advanced_pass_space w :
  all_space w = true -> all_space (advanced_pass w) = true.
Proof.
  intros H. unfold advanced_pass.
  assert (A : all_space (fold_lines false (squeeze is_blank false w)) = true)
    by apply fold_lines_space, squeeze_space, H.
  rewrite (entities_space _ A). exact A.
Qed.

Lemma basic_pass_space w :
  all_space w = true -> all_space (basic_pass w) = true.
Proof.
  intros H. unfold basic_pass.
  assert (A : all_space (squeeze py_isspace false w) = true)
    by apply squeeze_space, H.
  rewrite (entities_space _ A). exact A.
Qed.

Lemma not_all_space_split s :
  all_space s = false ->
  exists p a q, s = p ++ a :: q /\ py_isspace a = false.
Proof.
  induction s as [|c s IH]; [discriminate|]. cbn [all_space forallb].
  destruct (py_isspace c) eqn:E.
  - intros H. destruct (IH H) as (p & a & q & -> & Ha).
    exists (c :: p), a, q. auto.
  - intros _. exists [], c, s. auto.
Qed.

Lemma strip_around_nonempty x a y :
  py_isspace a = false -> strip (x ++ entity a ++ y) <> [].
Proof.
  intros Ha. destruct (entity_solid a Ha) as (Ng & Hs & He).
  rewrite strip_around by assumption.
  destruct (lstrip x); [|discriminate].
  destruct (entity a); [congruence | discriminate].
Qed.

(** X5: [clean_text] returns the empty string exactly for the texts that
    are empty or white space only, in both variants. *)
Theorem clean_text_empty_iff (s : pystr) :
  (Advanced.clean_text (Some s) = [] <-> all_space s = true)
  /\ (Basic.clean_text (Some s) = [] <-> all_space s = true).
Proof.
  rewrite advanced_clean_text_pass, basic_clean_text_pass.
  split; split.
  - intros E. destruct (all_space s) eqn:A; [reflexivity|].
    destruct (not_all_space_split s A) as (p & a & q & -> & Ha).
    rewrite advanced_pass_split in E by exact Ha.
    destruct (strip_around_nonempty _ a _ Ha E).
  - intros A. apply strip_all_space, advanced_pass_space, A.
  - intros E. destruct (all_space s) eqn:A; [reflexivity|].
    destruct (not_all_space_split s A) as (p & a & q & -> & Ha).
    rewrite basic_pass_split in E by exact Ha.
    destruct (strip_around_nonempty _ a _ Ha E).
  - intros A. apply strip_all_space, basic_pass_space, A.
Qed.

Section KeptInOrder.

Variable q : N -> bool.
Hypothesis q_nonspace : forall c, py_isspace c = true -> q c = false.

Lemma filter_space w : all_space w = true -> filter q w = [].
Proof.
  induction w as [|c w IH]; [reflexivity|]. cbn [all_space forallb filter].
  intros H. apply andb_true_iff in H. destruct H as [Hc H].
  rewrite (q_nonspace c Hc). apply IH, H.
Qed.

Lemma filter_strip s : filter q (strip s) = filter q s.
Proof.
  destruct (strip_split s) as (w1 & w2 & E & H1 & H2). rewrite E at 2.
  rewrite !filter_app, (filter_space w1 H1), (filter_space w2 H2).
  rewrite app_nil_r. reflexivity.
Qed.

Lemma filter_squeeze p s :
  (forall c, p c = true -> py_isspace c = true) ->
  forall d, filter q (squeeze p d s) = filter q s.
Proof.
  intros Hp. induction s as [|c s IH]; intros d; [reflexivity|].
  cbn [squeeze filter]. destruct (p c) eqn:E.
  - rewrite (q_nonspace c (Hp c E)). destruct d; [apply IH|].
    cbn [filter]. rewrite (q_nonspace ch_sp eq_refl). apply IH.
  - cbn [filter]. rewrite IH. reflexivity.
Qed.

Lemma filter_fold_lines s :
  filter q (fold_lines false s) = filter q s
  /\ (nl_ahead s = true -> filter q (fold_lines true s) = filter q s).
Proof.
  induction s as [|c s [IH0 IH1]]; [split; reflexivity|]. split.
  - cbn [fold_lines]. destruct (is_nl c && nl_ahead s) eqn:E.
    + apply andb_true_iff in E. destruct E as [E A].
      cbn [filter]. rewrite (q_nonspace ch_nl eq_refl).
      rewrite (q_nonspace c (is_nl_space c E)). apply IH1, A.
    + cbn [filter]. rewrite IH0. reflexivity.
  - cbn [nl_ahead fold_lines filter]. intros H.
    apply andb_true_iff in H. destruct H as [Hc H].
    rewrite Hc, (q_nonspace c Hc). cbn [andb].
    destruct (nl_ahead s) eqn:A; [apply IH1; reflexivity | exact IH0].
Qed.

End KeptInOrder.

Lemma non_space_space c : py_isspace c = true -> non_space c = false.
Proof. unfold non_space. intros ->. reflexivity. Qed.

Lemma filter_entity c :
  filter non_space (entity c) = if non_space c then entity c else [].
Proof.
  unfold entity.
  destruct (N.eqb_spec c ch_amp) as [->|_]; [reflexivity|].
  destruct (N.eqb_spec c ch_lt) as [->|_]; [reflexivity|].
  destruct (N.eqb_spec c ch_gt) as [->|_]; [reflexivity|].
  cbn [filter]. destruct (non_space c); reflexivity.
Qed.

Lemma filter_entities s :
  filter non_space (flat_map entity s)
  = flat_map entity (filter non_space s).
Proof.
  induction s as [|c s IH]; [reflexivity|]. cbn [flat_map filter].
  rewrite filter_app, filter_entity, IH.
  destruct (non_space c); reflexivity.
Qed.

(** X6: [clean_text] neither drops nor adds nor reorders text: the
    characters of its result that are no white space are those of the
    input, in their order, each replaced by its entity; in both
    variants. *)
Theorem clean_text_keeps_text (s : pystr) :
  filter non_space (Advanced.clean_text (Some s))
  = flat_map entity (filter non_space s)
  /\ filter non_space (Basic.clean_text (Some s))
     = flat_map entity (filter non_space s).
Proof.
  rewrite advanced_clean_text_pass, basic_clean_text_pass.
  rewrite !(filter_strip non_space non_space_space).
  unfold advanced_pass, basic_pass. rewrite !filter_entities.
  rewrite (proj1 (filter_fold_lines non_space non_space_space _)).
  rewrite (filter_squeeze non_space non_space_space is_blank _
             is_blank_space).
  rewrite (filter_squeeze non_space non_space_space py_isspace _
             (fun c H => H)).
  split; reflexivity.
Qed.

Lemma squeeze_one_line s : forall d,
  one_line s = true -> squeeze is_blank d s = squeeze py_isspace d s.
Proof.
  induction s as [|c s IH]; intros d; [reflexivity|].
  cbn [one_line forallb squeeze]. intros H.
  apply andb_true_iff in H. destruct H as [Hc H].
  destruct (py_isspace c) eqn:E.
  - cbn [negb orb] in Hc. rewrite Hc, (IH true H). reflexivity.
  - rewrite (not_space_not_blank c E), (IH false H). reflexivity.
Qed.

Lemma no_break_squeeze_blank s : forall d,
  one_line s = true -> no_break (squeeze is_blank d s) = true.
Proof.
  intros d H. rewrite (squeeze_one_line s d H). apply no_break_squeeze.
Qed.

Lemma fold_lines_no_break s :
  no_break s = true -> fold_lines false s = s.
Proof.
  induction s as [|c s IH]; [reflexivity|]. cbn [no_break forallb fold_lines].
  intros H. apply andb_true_iff in H. destruct H as [Hc H].
  apply negb_true_iff in Hc. rewrite Hc. cbn [andb].
  rewrite (IH H). reflexivity.
Qed.

(** X7: on a text whose white space is spaces and tabs only (one line),
    the two variants of [clean_text] give the same result. *)
Theorem clean_text_variants_agree (s : pystr) :
  one_line s = true ->
  Advanced.clean_text (Some s) = Basic.clean_text (Some s).
Proof.
  intros H. rewrite advanced_clean_text_pass, basic_clean_text_pass.
  unfold advanced_pass, basic_pass.
  rewrite fold_lines_no_break by apply no_break_squeeze_blank, H.
  rewrite (squeeze_one_line s false H). reflexivity.
Qed.

(** X7 on a text with a tab and a special character. *)
Lemma clean_text_variants_agree_witness :
  one_line (str " a <b" ++ [ch_tab; ch_sp] ++ str "c ") = true
  /\ Advanced.clean_text (Some (str " a <b" ++ [ch_tab; ch_sp] ++ str "c "))
     = Basic.clean_text (Some (str " a <b" ++ [ch_tab; ch_sp] ++ str "c "))
  /\ Basic.clean_text (Some (str " a <b" ++ [ch_tab; ch_sp] ++ str "c "))
     = str "a &lt;b c".
Proof.
  split; [reflexivity|]. split; [|reflexivity].
  apply clean_text_variants_agree. reflexivity.
Defined.

Lemma entity_nonempty c : entity c <> [].
Proof.
  unfold entity. destruct (c =? ch_amp); [discriminate|].
  destruct (c =? ch_lt); [discriminate|].
  destruct (c =? ch_gt); discriminate.
Qed.

Lemma entities_injective a : forall b,
  flat_map entity a = flat_map entity b -> a = b.
Proof.
  induction a as [|x a IH]; intros [|y b]; cbn [flat_map].
  - reflexivity.
  - intros H. symmetry in H. apply app_eq_nil in H.
    destruct (entity_nonempty y (proj1 H)).
  - intros H. apply app_eq_nil in H. destruct (entity_nonempty x (proj1 H)).
  - unfold entity at 1 3.
    destruct (N.eqb_spec x ch_amp) as [->|Xa];
      [|destruct (N.eqb_spec x ch_lt) as [->|Xl];
        [|destruct (N.eqb_spec x ch_gt) as [->|Xg]]];
      (destruct (N.eqb_spec y ch_amp) as [->|Ya];
       [|destruct (N.eqb_spec y ch_lt) as [->|Yl];
         [|destruct (N.eqb_spec y ch_gt) as [->|Yg]]]);
      cbn; intros H; unfold ch_amp, ch_lt, ch_gt in *;
      try discriminate H;
      try (injection H as H; rewrite (IH b H); reflexivity);
      try (injection H as E H; congruence);
      try (injection H as E H; subst; rewrite (IH b H); reflexivity).
Qed.

(** X8: the three replacements of [clean_text] come to one pass that
    writes each character as its entity: no replacement touches what an
    earlier one wrote.  The escaping loses nothing: two texts with the
    same escaped form are the same text. *)
Theorem escape_html_faithful :
  (forall s, escape_html s = flat_map entity s)
  /\ (forall a b, escape_html a = escape_html b -> a = b).
Proof.
  split; [apply escape_html_entities|].
  intros a b. rewrite !escape_html_entities. apply entities_injective.
Qed.

(** X8 on a text that holds an entity already. *)
Lemma escape_html_faithful_witness :
  escape_html (str "a<&lt;>") = str "a&lt;&amp;lt;&gt;"
  /\ str "a<&lt;>" = str "a<&lt;>".
Proof.
  split; [reflexivity|].
  apply (proj2 escape_html_faithful). reflexivity.
Defined.

(** ** Pages *)

Lemma clean_text_space s :
  all_space s = true ->
  Advanced.clean_text (Some s) = [] /\ Basic.clean_text (Some s) = [].
Proof.
  intros A. rewrite advanced_clean_text_pass, basic_clean_text_pass. split.
  - apply strip_all_space, advanced_pass_space, A.
  - apply strip_all_space, basic_pass_space, A.
Qed.

(** X9: a page whose text is white space only still gets its heading and
    its rule, with nothing between them; in convert_pdf.py an empty
    paragraph stands between them. *)
Theorem whitespace_page (db : unicode_db) (page_num : nat) (s : pystr) :
  s <> [] -> all_space s = true ->
  Advanced.render_text db page_num (Some s)
  = [Advanced.page_heading page_num; rule]
  /\ Basic.render_text db page_num (Some s)
     = [Advanced.page_heading page_num; rule]
  /\ Simple.render_text page_num (Some s)
     = [str "## Page " ++ format_int page_num ++ nlnl; nlnl; rule].
Proof.
  intros Ns A. destruct (clean_text_space s A) as [Ca Cb].
  unfold Advanced.render_text, Basic.render_text, Simple.render_text.
  rewrite Ca, Cb. cbn [or_empty]. rewrite (strip_all_space s A).
  destruct s as [|c s]; [congruence|]. repeat split.
Qed.

(** X9 on a page whose text is a space and a line break. *)
Lemma whitespace_page_witness :
  Advanced.render_text ascii_db 3 (Some [ch_sp; ch_nl])
  = [Advanced.page_heading 3; rule]
  /\ Simple.render_text 3 (Some [ch_sp; ch_nl])
     = [str "## Page 3" ++ nlnl; nlnl; rule].
Proof.
  assert (Ns : [ch_sp; ch_nl] <> []) by discriminate.
  destruct (whitespace_page ascii_db 3 [ch_sp; ch_nl] Ns eq_refl)
    as (A & _ & C).
  split; [exact A | exact C].
Defined.

Lemma basic_clean_text_nonempty s :
  all_space s = false -> Basic.clean_text (Some s) <> [].
Proof.
  intros A. rewrite basic_clean_text_pass.
  destruct (not_all_space_split s A) as (p & a & q & -> & Ha).
  rewrite basic_pass_split by exact Ha.
  apply strip_around_nonempty, Ha.
Qed.

(** X10: in pdf_to_markdown.py the text of a page is always one block:
    the cleaned text holds no blank line to split at, so the whole text
    is one paragraph, or one heading when it passes the test of line
    54. *)
Theorem basic_page_one_block (db : unicode_db) (page_num : nat)
  (s : pystr) :
  all_space s = false ->
  Basic.render_text db page_num (Some s)
  = [Advanced.page_heading page_num;
     (if Basic.is_heading db (Basic.clean_text (Some s))
      then str "### " ++ Basic.clean_text (Some s)
      else Basic.clean_text (Some s)) ++ nlnl;
     rule].
Proof.
  intros A. unfold Basic.render_text.
  assert (T : truthy (Some s) = true)
    by (destruct s; [discriminate A | reflexivity]).
  rewrite T, basic_one_paragraph. cbn [flat_map app].
  unfold Basic.render_paragraph.
  pose proof (basic_clean_text_nonempty s A) as Nc.
  destruct (clean_text_trimmed_some s) as (_ & _ & Hs & He).
  rewrite (strip_fixed _ Hs He).
  destruct (Basic.clean_text (Some s)) as [|c y] eqn:E; [congruence|].
  cbn [truthy]. destruct (Basic.is_heading db (c :: y)); reflexivity.
Qed.

(** X10 on a text of two paragraphs in capitals. *)
Lemma basic_page_one_block_witness :
  Basic.render_text ascii_db 1
    (Some (str "TITLE" ++ nlnl ++ str "BODY"))
  = [Advanced.page_heading 1; str "### TITLE BODY" ++ nlnl; rule].
Proof.
  exact (eq_trans
           (basic_page_one_block ascii_db 1
              (str "TITLE" ++ nlnl ++ str "BODY") eq_refl)
           eq_refl).
Defined.

(** ** More on heading detection *)

Lemma star_bounds p k m s : forall n,
  (forall t j, k t = Some j -> (m <= j <= List.length t)%nat) ->
  star p k s = Some n -> (m <= n <= List.length s)%nat.
Proof.
  intros n Hk. revert n. induction s as [|c s IH]; intros n; cbn [star].
  - apply Hk.
  - destruct (p c); [|apply Hk].
    destruct (star p k s) as [j|] eqn:E; [|apply Hk].
    intros H. injection H as <-. specialize (IH j eq_refl).
    cbn [List.length]. lia.
Qed.

(** A match consumes at least [min_len r] characters and no more than
    there are. *)
Lemma match_len_bounds r : forall s n,
  match_len r s = Some n -> (min_len r <= n <= List.length s)%nat.
Proof.
  induction r as [|[p q] r IH]; intros s n; cbn [match_len min_len].
  - intros H. injection H as <-. lia.
  - destruct q.
    + destruct s as [|c s]; [discriminate|]. destruct (p c); [|discriminate].
      destruct (match_len r s) as [j|] eqn:E; [|discriminate].
      cbn [option_map]. intros H. injection H as <-.
      specialize (IH s j E). cbn [List.length]. lia.
    + destruct s as [|c s]; [apply IH|]. destruct (p c); [|apply IH].
      destruct (match_len r s) as [j|] eqn:E; [|apply IH].
      intros H. injection H as <-. specialize (IH s j E).
      cbn [List.length]. lia.
    + apply star_bounds. exact IH.
    + destruct s as [|c s]; [discriminate|]. destruct (p c); [|discriminate].
      destruct (star p (match_len r) s) as [j|] eqn:E; [|discriminate].
      cbn [option_map]. intros H. injection H as <-.
      pose proof (star_bounds p (match_len r) (min_len r) s j IH E).
      cbn [List.length]. lia.
Qed.

Lemma numbered_length db s :
  re_match (re_numbered db) s = true -> len_lt s 2 = false.
Proof.
  unfold re_match, len_lt.
  destruct (match_len (re_numbered db) s) as [n|] eqn:E; [|discriminate].
  intros _. apply match_len_bounds in E. cbn [re_numbered min_len] in E.
  apply Nat.ltb_ge. lia.
Qed.

Lemma starts_with_split p : forall s,
  starts_with p s = true -> exists post, s = p ++ post.
Proof.
  induction p as [|a p IH]; intros s; cbn [starts_with].
  - intros _. exists s. reflexivity.
  - destruct s as [|c s]; [discriminate|]. intros H.
    apply andb_true_iff in H. destruct H as [E H]. apply N.eqb_eq in E.
    destruct (IH s H) as (post & ->). exists post. subst c. reflexivity.
Qed.

Lemma contains_split kw : forall s,
  contains kw s = true -> exists pre post, s = pre ++ kw ++ post.
Proof.
  induction s as [|c s IH]; cbn [contains]; intros H.
  - rewrite orb_false_r in H.
    destruct (starts_with_split kw [] H) as (post & E).
    exists [], post. exact E.
  - apply orb_true_iff in H. destruct H as [H | H].
    + destruct (starts_with_split kw _ H) as (post & E). exists [], post.
      exact E.
    + destruct (IH H) as (pre & post & ->). exists (c :: pre), post.
      reflexivity.
Qed.

Lemma count_of_length q s : (count_of q s <= List.length s)%nat.
Proof. apply filter_length_le. Qed.

Lemma keywords_solid :
  Forall (fun kw => forallb non_space kw = true
                    /\ (2 <= count_of non_space kw)%nat
                    /\ kw <> [])
    Advanced.heading_keywords.
Proof.
  unfold Advanced.heading_keywords.
  repeat constructor; cbn; try lia; discriminate.
Qed.

Lemma keyword_length text :
  existsb (fun keyword => contains keyword text) Advanced.heading_keywords
  = true ->
  len_lt (strip text) 2 = false.
Proof.
  intros H. apply existsb_exists in H. destruct H as (kw & Hin & Hc).
  pose proof keywords_solid as K. rewrite Forall_forall in K.
  destruct (K kw Hin) as (_ & K2 & _).
  destruct (contains_split kw text Hc) as (pre & post & E).
  assert (C : (2 <= count_of non_space text)%nat).
  { rewrite E, !count_of_app. lia. }
  rewrite <- (count_of_strip non_space non_space_space) in C.
  pose proof (count_of_length non_space (strip text)).
  unfold len_lt. apply Nat.ltb_ge. lia.
Qed.

(** X11: the test on the length at the head of [detect_heading] only
    bears on the rule of the capitals: a text that starts like a numbered
    heading or holds a keyword is a heading whatever its length, since it
    has two characters at least. *)
Theorem detect_heading_rules (db : unicode_db) (text : pystr) :
  Advanced.detect_heading db (Some text)
  = (negb (len_lt (strip text) 2)
     && pystr_eqb (upper db (strip text)) (strip text)
     && len_lt (strip text) 50)
    || re_match (re_numbered db) (strip text)
    || existsb (fun keyword => contains keyword text)
         Advanced.heading_keywords.
Proof.
  rewrite detect_heading_guarded. unfold claimed_heading.
  destruct (re_match (re_numbered db) (strip text)) eqn:R.
  - rewrite (numbered_length db _ R). cbn [negb andb]. rewrite !orb_true_r.
    reflexivity.
  - destruct (existsb (fun keyword => contains keyword text)
                Advanced.heading_keywords) eqn:K.
    + rewrite (keyword_length text K). cbn [negb andb]. rewrite !orb_true_r.
      reflexivity.
    + rewrite !orb_false_r, andb_assoc. reflexivity.
Qed.

Lemma starts_with_space_tail kw : forall x w,
  forallb non_space kw = true -> all_space w = true ->
  starts_with kw (x ++ w) = starts_with kw x.
Proof.
  induction kw as [|k kw IH]; intros x w Hk Hw; [reflexivity|].
  cbn [forallb] in Hk. apply andb_true_iff in Hk. destruct Hk as [Hk0 Hk].
  destruct x as [|c x].
  - cbn [app starts_with]. destruct w as [|c w]; [reflexivity|].
    cbn [all_space forallb] in Hw. apply andb_true_iff in Hw.
    destruct Hw as [Hc _]. unfold non_space in Hk0.
    destruct (N.eqb_spec k c) as [->|_]; [|reflexivity].
    rewrite Hc in Hk0. discriminate Hk0.
  - cbn [app starts_with]. rewrite (IH x w Hk Hw). reflexivity.
Qed.

Lemma contains_space kw w :
  forallb non_space kw = true -> kw <> [] -> all_space w = true ->
  contains kw w = false.
Proof.
  intros Hk Nk. destruct kw as [|k kw]; [congruence|].
  cbn [forallb] in Hk. apply andb_true_iff in Hk. destruct Hk as [Hk0 _].
  induction w as [|c w IH]; [reflexivity|].
  cbn [all_space forallb contains starts_with]. intros H.
  apply andb_true_iff in H. destruct H as [Hc H]. rewrite (IH H).
  unfold non_space in Hk0.
  destruct (N.eqb_spec k c) as [->|_]; [|reflexivity].
  rewrite Hc in Hk0. discriminate Hk0.
Qed.

Lemma contains_space_head kw w s :
  forallb non_space kw = true -> kw <> [] -> all_space w = true ->
  contains kw (w ++ s) = contains kw s.
Proof.
  intros Hk Nk. destruct kw as [|k kw]; [congruence|].
  pose proof Hk as Hk'.
  cbn [forallb] in Hk. apply andb_true_iff in Hk. destruct Hk as [Hk0 _].
  induction w as [|c w IH]; [reflexivity|].
  cbn [all_space forallb]. intros H.
  apply andb_true_iff in H. destruct H as [Hc H].
  change (contains (k :: kw) ((c :: w) ++ s))
    with (starts_with (k :: kw) (c :: w ++ s)
          || contains (k :: kw) (w ++ s)).
  rewrite (IH H). cbn [starts_with]. unfold non_space in Hk0.
  destruct (N.eqb_spec k c) as [->|_]; [|reflexivity].
  rewrite Hc in Hk0. discriminate Hk0.
Qed.

Lemma contains_space_tail kw w :
  forallb non_space kw = true -> kw <> [] -> all_space w = true ->
  forall y, contains kw (y ++ w) = contains kw y.
Proof.
  intros Hk Nk Hw. induction y as [|c y IH].
  - cbn [app]. rewrite (contains_space kw w Hk Nk Hw).
    destruct kw; [congruence | reflexivity].
  - change (contains kw ((c :: y) ++ w))
      with (starts_with kw ((c :: y) ++ w) || contains kw (y ++ w)).
    rewrite IH, (starts_with_space_tail kw (c :: y) w Hk Hw). reflexivity.
Qed.

Lemma contains_strip kw s :
  forallb non_space kw = true -> kw <> [] ->
  contains kw (strip s) = contains kw s.
Proof.
  intros Hk Nk. destruct (strip_split s) as (w1 & w2 & E & H1 & H2).
  rewrite E at 2. rewrite (contains_space_head kw w1 _ Hk Nk H1).
  rewrite (contains_space_tail kw w2 Hk Nk H2). reflexivity.
Qed.

Lemma keywords_strip text :
  existsb (fun keyword => contains keyword (strip text))
    Advanced.heading_keywords
  = existsb (fun keyword => contains keyword text) Advanced.heading_keywords.
Proof.
  pose proof keywords_solid as K.
  induction K as [|kw kws (Hk & _ & Nk) _ IH]; [reflexivity|].
  cbn [existsb]. rewrite IH, (contains_strip kw text Hk Nk). reflexivity.
Qed.

(** X12: [detect_heading] does not depend on the white space around the
    text: it gives the same on the text and on the trimmed text. *)
Theorem detect_heading_trimmed (db : unicode_db) (text : pystr) :
  Advanced.detect_heading db (Some (strip text))
  = Advanced.detect_heading db (Some text).
Proof.
  rewrite !detect_heading_guarded. unfold claimed_heading.
  rewrite strip_strip, keywords_strip. reflexivity.
Qed.

(** ** The document and the entry points *)

Lemma page_fine p :
  page_raises p = false ->
  extract_text p = Ok (text_of p) /\ extract_tables p = Ok (tables_of p).
Proof.
  unfold page_raises, text_of, tables_of.
  destruct (extract_text p), (extract_tables p); try discriminate.
  split; reflexivity.
Qed.

Lemma advanced_extract_ok db pages : forall page_num markdown_content,
  existsb page_raises pages = false ->
  Advanced.extract_pages db page_num pages markdown_content
  = Ok (markdown_content ++ advanced_pages db page_num pages).
Proof.
  induction pages as [|p pages IH]; intros page_num markdown_content H.
  - cbn. rewrite app_nil_r. reflexivity.
  - cbn [existsb] in H. apply orb_false_iff in H. destruct H as [Hp H].
    destruct (page_fine p Hp) as [Et Eb].
    cbn [Advanced.extract_pages advanced_pages]. rewrite Et, Eb, (IH _ _ H).
    unfold Advanced.render_page. rewrite <- !app_assoc. reflexivity.
Qed.

Lemma basic_extract_ok db pages : forall page_num markdown_content,
  existsb page_raises pages = false ->
  Basic.extract_pages db page_num pages markdown_content
  = Ok (markdown_content ++ basic_pages db page_num pages).
Proof.
  induction pages as [|p pages IH]; intros page_num markdown_content H.
  - cbn. rewrite app_nil_r. reflexivity.
  - cbn [existsb] in H. apply orb_false_iff in H. destruct H as [Hp H].
    destruct (page_fine p Hp) as [Et Eb].
    cbn [Basic.extract_pages basic_pages]. rewrite Et, Eb, (IH _ _ H).
    unfold Basic.render_page. rewrite <- !app_assoc. reflexivity.
Qed.

Lemma simple_extract_ok pages : forall page_num markdown_content,
  existsb page_raises pages = false ->
  Simple.extract_pages page_num pages markdown_content
  = Ok (markdown_content ++ simple_pages page_num pages).
Proof.
  induction pages as [|p pages IH]; intros page_num markdown_content H.
  - cbn. rewrite app_nil_r. reflexivity.
  - cbn [existsb] in H. apply orb_false_iff in H. destruct H as [Hp H].
    destruct (page_fine p Hp) as [Et Eb].
    cbn [Simple.extract_pages simple_pages]. rewrite Et, Eb, (IH _ _ H).
    unfold Simple.render_page. rewrite <- !app_assoc. reflexivity.
Qed.

Lemma bodies_ok db e pages :
  open_pdf e = Ok pages -> existsb page_raises pages = false ->
  Advanced.extract_body db e
  = Ok ([Advanced.title_line;
         Advanced.page_count_line (List.length pages); rule]
        ++ advanced_pages db 1 pages)
  /\ Basic.extract_body db e
     = Ok ([Advanced.title_line;
            Advanced.page_count_line (List.length pages); rule]
           ++ basic_pages db 1 pages)
  /\ Simple.extract_body e
     = Ok ([str "# " ++ path_stem e ++ nlnl;
            str "*Converted from PDF - " ++ format_int (List.length pages)
            ++ str " pages*" ++ nlnl;
            rule]
           ++ simple_pages 1 pages).
Proof.
  intros O H.
  unfold Advanced.extract_body, Basic.extract_body, Simple.extract_body.
  rewrite O, advanced_extract_ok, basic_extract_ok, simple_extract_ok
    by exact H.
  repeat split.
Qed.

(** X13: when no call raises, the document is the three lines of the
    head followed by the blocks of the pages in the order of the pages,
    the pages being numbered from 1 by their place, whether they have a
    text or not; in the three variants. *)
Theorem document_in_page_order (db : unicode_db) (e : env)
  (pages : list page) :
  open_pdf e = Ok pages -> existsb page_raises pages = false ->
  (Advanced.extract_body db e
   = Ok ([Advanced.title_line;
          Advanced.page_count_line (List.length pages); rule]
         ++ advanced_pages db 1 pages)
   /\ Basic.extract_body db e
      = Ok ([Advanced.title_line;
             Advanced.page_count_line (List.length pages); rule]
            ++ basic_pages db 1 pages)
   /\ Simple.extract_body e
      = Ok ([str "# " ++ path_stem e ++ nlnl;
             str "*Converted from PDF - " ++ format_int (List.length pages)
             ++ str " pages*" ++ nlnl;
             rule]
            ++ simple_pages 1 pages))
  /\ (forall page_num first others,
        advanced_pages db page_num (first ++ others)
        = advanced_pages db page_num first
          ++ advanced_pages db (page_num + List.length first) others).
Proof.
  intros O H. split; [apply bodies_ok; assumption|].
  intros page_num first. revert page_num.
  induction first as [|p first IH]; intros page_num others.
  - cbn. rewrite Nat.add_0_r. reflexivity.
  - cbn [app advanced_pages List.length].
    rewrite IH, <- app_assoc, Nat.add_succ_r. reflexivity.
Qed.

(** X13 on an input whose first page has no text: the second page keeps
    the number 2. *)
Lemma document_in_page_order_witness :
  Advanced.extract_body ascii_db env_two_pages
  = Ok [Advanced.title_line; Advanced.page_count_line 2; rule;
        Advanced.page_heading 2; str "Hello" ++ nlnl; rule].
Proof.
  exact (eq_trans
           (proj1 (proj1 (document_in_page_order ascii_db env_two_pages _
                            eq_refl eq_refl)))
           eq_refl).
Defined.

Lemma missing_input_false db e pdf_path output_path w :
  path_exists e = false ->
  fst (Advanced.pdf_to_markdown_advanced db e pdf_path output_path w) = false
  /\ fst (Basic.pdf_to_markdown db e pdf_path output_path w) = false
  /\ fst (Simple.pdf_to_markdown_simple e pdf_path output_path w) = false.
Proof.
  intros X.
  unfold Advanced.pdf_to_markdown_advanced, Basic.pdf_to_markdown,
    Simple.pdf_to_markdown_simple.
  rewrite X. repeat split.
Qed.

Lemma outcome_true e body w r :
  conversion_outcome e body w r ->
  fst r
  = match body with
    | Raise _ => false
    | Ok _ =>
        match open_output e with Ok _ => true | Raise _ => false end
        && match write_output e with
           | Written => true
           | WriteFailed _ _ => false
           end
    end.
Proof.
  unfold conversion_outcome. destruct body as [mc|err]; [|tauto].
  destruct (open_output e); [|tauto].
  destruct (write_output e); tauto.
Qed.

Lemma extraction_fine db e :
  extraction_fails e = false ->
  (exists mc, Advanced.extract_body db e = Ok mc)
  /\ (exists mc, Basic.extract_body db e = Ok mc)
  /\ (exists mc, Simple.extract_body e = Ok mc).
Proof.
  unfold extraction_fails. destruct (open_pdf e) as [pages|err] eqn:O;
    [|discriminate].
  intros H. destruct (bodies_ok db e pages O H) as (A & B & C).
  rewrite A, B, C. repeat split; eexists; reflexivity.
Qed.

Lemma simple_result e pdf_path output_path w :
  fst (Simple.pdf_to_markdown_simple e pdf_path output_path w)
  = all_goes_well e.
Proof.
  unfold all_goes_well. destruct (path_exists e) eqn:X.
  - rewrite (outcome_true _ _ _ _
               (simple_outcome e pdf_path output_path w X)).
    destruct (extraction_fails e) eqn:F.
    + destruct (extraction_fails_raises ascii_db e F) as (_ & _ & (? & ->)).
      reflexivity.
    + destruct (extraction_fine ascii_db e F) as (_ & _ & (? & ->)).
      reflexivity.
  - apply (missing_input_false ascii_db e pdf_path output_path w X).
Qed.

(** X14: each of the three entry points returns [True] exactly when all
    went well: the input is there, no call of the extraction raised, and
    the output was opened and written. *)
Theorem conversion_true_iff (db : unicode_db) (e : env)
  (pdf_path : pystr) (output_path : option pystr) (w : world) :
  fst (Advanced.pdf_to_markdown_advanced db e pdf_path output_path w)
  = all_goes_well e
  /\ fst (Basic.pdf_to_markdown db e pdf_path output_path w)
     = all_goes_well e
  /\ fst (Simple.pdf_to_markdown_simple e pdf_path output_path w)
     = all_goes_well e.
Proof.
  rewrite simple_result. unfold all_goes_well.
  destruct (path_exists e) eqn:X.
  - rewrite (outcome_true _ _ _ _
               (advanced_outcome db e pdf_path output_path w X)).
    rewrite (outcome_true _ _ _ _
               (basic_outcome db e pdf_path output_path w X)).
    destruct (extraction_fails e) eqn:F.
    + destruct (extraction_fails_raises db e F)
        as ((? & ->) & (? & ->) & _).
      repeat split.
    + destruct (extraction_fine db e F) as ((? & ->) & (? & ->) & _).
      repeat split.
  - destruct (missing_input_false db e pdf_path output_path w X)
      as (A & B & _).
    rewrite A, B. repeat split.
Qed.

(** X15: when all goes well, [pdf_to_markdown_advanced] leaves the whole
    document in the output file, and these events in this order: the
    check of the input, the opening of the PDF, the opening of the
    output, one write of the whole document, the message of success.  The
    output path is the one given, or the stem of the input with
    [_advanced.md]. *)
Theorem advanced_success (db : unicode_db) (e : env) (pages : list page)
  (pdf_path : pystr) (output_path : option pystr) (w : world) :
  all_goes_well e = true -> open_pdf e = Ok pages ->
  let path :=
    match output_path with
    | Some given => given
    | None => path_stem e ++ str "_advanced.md"
    end in
  let document :=
    List.concat
      ([Advanced.title_line;
        Advanced.page_count_line (List.length pages); rule]
       ++ advanced_pages db 1 pages) in
  Advanced.pdf_to_markdown_advanced db e pdf_path output_path w
  = (true,
     {| output_file := Some document;
        events :=
          events w
          ++ [Exists_checked pdf_path; Pdf_opened pdf_path;
              Output_opened path; Output_written path document;
              Printed (success_message pdf_path path)] |}).
Proof.
  unfold all_goes_well, extraction_fails. intros G O. rewrite O in G.
  apply andb_true_iff in G. destruct G as [G Gw].
  apply andb_true_iff in G. destruct G as [G Go].
  apply andb_true_iff in G. destruct G as [Gx Gp].
  apply negb_true_iff in Gp.
  destruct (bodies_ok db e pages O Gp) as (A & _ & _).
  cbv zeta.
  unfold Advanced.pdf_to_markdown_advanced,
    Advanced.extract_text_with_advanced_formatting, write_file.
  rewrite Gx, A. cbn [negb].
  destruct (open_output e) as [u|err]; [|discriminate Go].
  destruct (write_output e) as [|err kept]; [|discriminate Gw].
  unfold log, set_output. cbn [events output_file].
  destruct output_path as [given|]; rewrite <- !app_assoc; reflexivity.
Qed.

(** X15 on the input of two pages. *)
Lemma advanced_success_witness :
  output_file
    (snd (Advanced.pdf_to_markdown_advanced ascii_db env_two_pages
            (str "in.pdf") None empty_world))
  = Some (Advanced.title_line ++ Advanced.page_count_line 2 ++ rule
          ++ Advanced.page_heading 2 ++ str "Hello" ++ nlnl ++ rule).
Proof.
  rewrite (advanced_success ascii_db env_two_pages _ (str "in.pdf") None
             empty_world eq_refl eq_refl).
  reflexivity.
Defined.

(** X16: the command line of convert_pdf.py.  Without an input path it
    prints the usage and exits with the status 1, nothing being checked
    or opened.  Otherwise the status is 0 exactly when all went well, and
    the arguments after the output path are not read. *)
Theorem command_line (e : env) (w : world) :
  (forall a0,
     convert_pdf_main [] e w = (1%nat, log (Printed usage_message) w)
     /\ convert_pdf_main [a0] e w = (1%nat, log (Printed usage_message) w))
  /\ (forall a0 a1 rest,
        fst (convert_pdf_main (a0 :: a1 :: rest) e w)
        = if all_goes_well e then 0%nat else 1%nat)
  /\ (forall a0 a1 a2 rest,
        convert_pdf_main (a0 :: a1 :: a2 :: rest) e w
        = convert_pdf_main [a0; a1; a2] e w).
Proof.
  split; [intros a0; split; reflexivity|]. split.
  - intros a0 a1 rest. unfold convert_pdf_main.
    cbn [List.length Nat.ltb Nat.leb nth].
    match goal with
    | |- context [Simple.pdf_to_markdown_simple e ?p ?o w] =>
        pose proof (simple_result e p o w) as R;
        destruct (Simple.pdf_to_markdown_simple e p o w) as [r w']
    end.
    cbn [fst] in R. rewrite <- R. destruct r; reflexivity.
  - intros a0 a1 a2 rest. reflexivity.
Qed.

(** ** Texts without case *)

Lemma caseless_facts db c :
  caseless c = true ->
  to_upper db c = [c] /\ is_upper db c = false
  /\ is_lower db c = false /\ is_title db c = false.
Proof.
  unfold caseless, is_AZ. intros H. apply orb_true_iff in H.
  destruct H as [H | H].
  - apply andb_true_iff in H. destruct H as [H Hl].
    apply andb_true_iff in H. destruct H as [H Hu].
    apply N.ltb_lt in H. apply negb_true_iff in Hl, Hu.
    rewrite (ascii_to_upper db c H), (ascii_is_upper db c H).
    rewrite (ascii_is_lower db c H), (ascii_is_title db c H).
    unfold ascii_upper. rewrite Hl, Hu. auto.
  - apply andb_true_iff in H. destruct H as [H1 H2].
    apply N.leb_le in H1, H2.
    destruct (cjk_caseless db c H1 H2) as (U & L & T).
    rewrite (cjk_to_upper db c H1 H2). auto.
Qed.

Lemma upper_caseless db s : forallb caseless s = true -> upper db s = s.
Proof.
  unfold upper. induction s as [|c s IH]; [reflexivity|].
  cbn [forallb flat_map]. intros H.
  apply andb_true_iff in H. destruct H as [Hc H].
  destruct (caseless_facts db c Hc) as (-> & _). rewrite (IH H).
  reflexivity.
Qed.

Lemma isupper_caseless db s : forall cased,
  forallb caseless s = true -> isupper_from db cased s = cased.
Proof.
  induction s as [|c s IH]; intros cased; [reflexivity|].
  cbn [forallb isupper_from]. intros H.
  apply andb_true_iff in H. destruct H as [Hc H].
  destruct (caseless_facts db c Hc) as (_ & -> & -> & ->).
  cbn [orb]. rewrite orb_false_r. apply IH, H.
Qed.

Lemma pystr_eqb_refl s : pystr_eqb s s = true.
Proof.
  induction s as [|c s IH]; [reflexivity|]. cbn [pystr_eqb].
  rewrite N.eqb_refl, IH. reflexivity.
Qed.

(** X17: a text without letters of the Latin alphabet (digits,
    punctuation, CJK ideographs) is a heading for [detect_heading] as soon
    as its trimmed form has from 2 to 49 characters, since it is its own
    upper case; the test of pdf_to_markdown.py never takes such a text
    for a heading, since it has no upper-case character. *)
Theorem caseless_heading (db : unicode_db) (text : pystr) :
  forallb caseless (strip text) = true ->
  len_lt (strip text) 2 = false -> len_lt (strip text) 50 = true ->
  Advanced.detect_heading db (Some text) = true
  /\ Basic.is_heading db text = false.
Proof.
  intros C L2 L50. split.
  - rewrite detect_heading_guarded, L2. unfold claimed_heading.
    rewrite (upper_caseless db _ C), pystr_eqb_refl, L50. reflexivity.
  - unfold Basic.is_heading, isupper.
    rewrite (isupper_caseless db _ false C). apply andb_false_r.
Qed.

(** X17 on a date and on two ideographs that are no keyword. *)
Lemma caseless_heading_witness :
  Advanced.detect_heading ascii_db (Some (str "2024-01-16")) = true
  /\ Basic.is_heading ascii_db (str "2024-01-16") = false
  /\ Advanced.detect_heading ascii_db (Some [0x7535; 0x673A]) = true.
Proof.
  destruct (caseless_heading ascii_db (str "2024-01-16")
              eq_refl eq_refl eq_refl) as [A B].
  destruct (caseless_heading ascii_db [0x7535; 0x673A]
              eq_refl eq_refl eq_refl) as [C _].
  split; [exact A|]. split; [exact B | exact C].
Defined.

(** ** The end of the document *)

Lemma closed_nil : closed [].
Proof. left. reflexivity. Qed.

Lemma closed_app l1 l2 : closed l1 -> closed l2 -> closed (l1 ++ l2).
Proof.
  unfold closed, ends_blank. rewrite concat_app.
  intros [E1 | (y1 & E1)] [E2 | (y2 & E2)]; rewrite E1, E2.
  - left. reflexivity.
  - right. exists y2. reflexivity.
  - right. exists y1. rewrite app_nil_r. reflexivity.
  - right. exists ((y1 ++ nlnl) ++ y2). rewrite <- !app_assoc. reflexivity.
Qed.

Lemma closed_snoc l x : closed (l ++ [x ++ nlnl]).
Proof.
  right. exists (List.concat l ++ x).
  rewrite concat_app. cbn [List.concat]. rewrite app_nil_r, <- app_assoc.
  reflexivity.
Qed.

Lemma closed_rule l : closed (l ++ [rule]).
Proof. apply (closed_snoc l (str "---")). Qed.

Lemma closed_breaks l x : closed (l ++ [x ++ [ch_nl]; [ch_nl]]).
Proof.
  right. exists (List.concat l ++ x).
  rewrite concat_app. cbn [List.concat]. rewrite <- !app_assoc.
  reflexivity.
Qed.

Lemma advanced_text_closed db page_num text :
  closed (Advanced.render_text db page_num text).
Proof.
  unfold Advanced.render_text. destruct (truthy text); [|apply closed_nil].
  rewrite app_assoc. apply closed_rule.
Qed.

Lemma advanced_tables_closed tables : forall i,
  closed (Advanced.render_tables_from i tables).
Proof.
  induction tables as [|t tables IH]; intros i; [apply closed_nil|].
  cbn [Advanced.render_tables_from]. apply closed_app; [|apply IH].
  rewrite render_table_cases. destruct (table_has_content t);
    [|apply closed_nil].
  apply (closed_snoc [Advanced.table_heading i; Advanced.format_table t] []).
Qed.

Lemma advanced_pages_closed db pages : forall page_num,
  closed (advanced_pages db page_num pages).
Proof.
  induction pages as [|p pages IH]; intros page_num; [apply closed_nil|].
  cbn [advanced_pages]. apply closed_app; [|apply IH].
  unfold Advanced.render_page. apply closed_app.
  - apply advanced_text_closed.
  - rewrite advanced_render_tables. apply advanced_tables_closed.
Qed.

Lemma basic_text_closed db page_num text :
  closed (Basic.render_text db page_num text).
Proof.
  unfold Basic.render_text. destruct (truthy text); [|apply closed_nil].
  rewrite app_assoc. apply closed_rule.
Qed.

Lemma rows_last (first : row) (others : table) :
  exists l x,
    [render_row first ++ [ch_nl]; render_separator first ++ [ch_nl]]
    ++ map (fun r => render_row r ++ [ch_nl]) others
    = l ++ [x ++ [ch_nl]].
Proof.
  destruct others as [|r others] using rev_ind.
  - exists [render_row first ++ [ch_nl]], (render_separator first).
    reflexivity.
  - exists ([render_row first ++ [ch_nl]; render_separator first ++ [ch_nl]]
            ++ map (fun r => render_row r ++ [ch_nl]) others),
      (render_row r).
    rewrite map_app. reflexivity.
Qed.

Lemma basic_table_closed t : closed (Basic.render_table t).
Proof.
  unfold Basic.render_table.
  destruct (negb (is_nil t) && table_has_content t); [|apply closed_nil].
  destruct t as [|first others]; [apply closed_nil|].
  destruct (rows_last first others) as (l & x & E).
  change ([Basic.table_heading; render_row first ++ [ch_nl];
           render_separator first ++ [ch_nl]]
          ++ map (fun r => render_row r ++ [ch_nl]) others ++ [[ch_nl]])
    with ([Basic.table_heading]
          ++ ([render_row first ++ [ch_nl];
               render_separator first ++ [ch_nl]]
              ++ map (fun r => render_row r ++ [ch_nl]) others)
          ++ [[ch_nl]]).
  rewrite E, <- !app_assoc. cbn [app].
  apply (closed_breaks (Basic.table_heading :: l) x).
Qed.

Lemma basic_pages_closed db pages : forall page_num,
  closed (basic_pages db page_num pages).
Proof.
  induction pages as [|p pages IH]; intros page_num; [apply closed_nil|].
  cbn [basic_pages]. apply closed_app; [|apply IH].
  unfold Basic.render_page. apply closed_app; [apply basic_text_closed|].
  rewrite basic_render_tables.
  induction (tables_of p) as [|t tables IHt]; [apply closed_nil|].
  cbn [flat_map]. apply closed_app; [apply basic_table_closed | exact IHt].
Qed.

Lemma headed_closed head pages :
  closed pages -> ends_blank (List.concat ((head ++ [rule]) ++ pages)).
Proof.
  intros H. destruct (closed_app _ _ (closed_rule head) H) as [E | E];
    [|exact E].
  rewrite concat_app in E. apply app_eq_nil in E. destruct E as [E _].
  rewrite concat_app in E. apply app_eq_nil in E. destruct E as [_ E].
  discriminate E.
Qed.

(** X18: the document of advanced_pdf_to_markdown.py and of
    pdf_to_markdown.py always ends with two line breaks: every block that
    the loops append ends with them, also the last table. *)
Theorem document_ends_blank (db : unicode_db) (e : env)
  (pages : list page) :
  open_pdf e = Ok pages -> existsb page_raises pages = false ->
  exists advanced basic,
    Advanced.extract_body db e = Ok advanced
    /\ ends_blank (List.concat advanced)
    /\ Basic.extract_body db e = Ok basic
    /\ ends_blank (List.concat basic).
Proof.
  intros O H. destruct (bodies_ok db e pages O H) as (A & B & _).
  eexists. eexists. split; [exact A|]. split.
  - apply (headed_closed
             [Advanced.title_line;
              Advanced.page_count_line (List.length pages)]).
    apply advanced_pages_closed.
  - split; [exact B|].
    apply (headed_closed
             [Advanced.title_line;
              Advanced.page_count_line (List.length pages)]).
    apply basic_pages_closed.
Qed.

(** X18 on the input of two pages. *)
Lemma document_ends_blank_witness :
  exists advanced basic,
    Advanced.extract_body ascii_db env_two_pages = Ok advanced
    /\ ends_blank (List.concat advanced)
    /\ Basic.extract_body ascii_db env_two_pages = Ok basic
    /\ ends_blank (List.concat basic).
Proof.
  exact (document_ends_blank ascii_db env_two_pages _ eq_refl eq_refl).
Defined.
